(** * Platega payment gateway adapter

    A shallow embedding of [src/infrastructure/payment_gateways/platega.py]
    (class [PlategaGateway]) and the properties of its constructor, of
    [handle_create_payment] and of [handle_webhook].

    Conventions of the embedding.
    - A Python [str] or [bytes] is a [string]; a JSON document decoded by
      [orjson.loads] is a [value]; a [dict] is a [gmap string value].
    - A coroutine is a computation in the monad [M]: it appends to a journal
      of observable events (log records, outbound HTTP requests, the creation
      of the HTTP client) and ends with a result or a raised exception.
    - Functions of the Python runtime and of third-party libraries that the
      adapter calls but does not define ([str] of a [Decimal], [float],
      [repr], [orjson.loads], [uuid.UUID]) are the fields of the class
      [Runtime]; every theorem holds for every instance. *)

From Stdlib Require Import ZArith Ascii String List.
From Stdlib Require Import Floats.SpecFloat.
From stdpp Require Import base option gmap strings pretty list.

Open Scope string_scope.
Open Scope list_scope.
Open Scope Z_scope.

(** ** Python values *)

(** The objects [orjson.loads] produces.  [VNone] is Python's [None]: it is
    what JSON [null] decodes to and what [dict.get] answers for a missing
    key. *)
#[warnings="-register-all"]
Inductive value :=
| VNone
| VBool (b : bool)
| VInt (n : Z)
| VFloat (f : spec_float)
| VStr (s : string)
| VList (l : list value)
| VDict (d : gmap string value).

Definition float_is_zero (f : spec_float) : bool :=
  match f with S754_zero _ => true | _ => false end.

(** Truth value of an object, as [not x] and [if x] test it. *)
Definition truthy (v : value) : bool :=
  match v with
  | VNone => false
  | VBool b => b
  | VInt n => negb (n =? 0)
  | VFloat f => negb (float_is_zero f)
  | VStr s => negb (String.eqb s "")
  | VList l => match l with [] => false | _ => true end
  | VDict d => negb (bool_decide (d = ∅))
  end.

(** The name of an object's class, as [type(x).__name__] gives it. *)
Definition type_name (v : value) : string :=
  match v with
  | VNone => "NoneType"
  | VBool _ => "bool"
  | VInt _ => "int"
  | VFloat _ => "float"
  | VStr _ => "str"
  | VList _ => "list"
  | VDict _ => "dict"
  end.

(** [v == s] for a string literal [s], the test a literal pattern of a
    [match] statement performs: only a [str] equals a [str]. *)
Definition eq_str (v : value) (s : string) : bool :=
  match v with
  | VStr t => String.eqb t s
  | _ => false
  end.

(** Truth value of an [Optional[str]] (a header that may be missing). *)
Definition truthy_str (o : option string) : bool :=
  match o with
  | None => false
  | Some s => negb (String.eqb s "")
  end.

(** ** Exceptions, events and the monad of coroutines *)

(** An HTTP response as the adapter reads it. *)
Record Response := mkResponse {
  status_code : Z;
  content : string;
  text : string
}.

(** The exception classes that occur; each is a subclass of [Exception].
    [JSONDecodeError] is kept apart from [ValueError], its base class,
    because an [except] clause of [handle_create_payment] names it. *)
Inductive exn :=
| TypeError (msg : string)
| ValueError (msg : string)
| KeyError (msg : string)
| AttributeError (msg : string)
| PermissionError (msg : string)
| JSONDecodeError (msg : string)
| HTTPStatusError (msg : string) (response : Response)
| RequestError (msg : string).

Inductive level := DEBUG | INFO | WARNING | ERROR | CRITICAL.

(** The HTTP client the constructor builds.  A header value is an
    [Optional[str]], the type of [merchant_id]. *)
Record AsyncClient := mkAsyncClient {
  base_url : string;
  client_headers : list (string * option string)
}.

(** What a run does besides returning: records handed to the logger
    ([LogException] is [logger.exception]: an ERROR record with the
    traceback), the creation of the HTTP client and the requests sent
    through it. *)
Inductive event :=
| Log (lvl : level) (msg : string)
| LogException (msg : string)
| MakeClient (client : AsyncClient)
| Post (client : AsyncClient) (path : string) (json : value).

Definition M (A : Type) : Type := list event * (exn + A).

Definition ret {A} (x : A) : M A := ([], inr x).
Definition raise {A} (e : exn) : M A := ([], inl e).
Definition tell (ev : event) : M unit := ([ev], inr tt).

Definition bind {A B} (m : M A) (k : A → M B) : M B :=
  match m with
  | (tr, inl e) => (tr, inl e)
  | (tr, inr x) => let '(tr', r) := k x in (tr ++ tr', r)
  end.

(** [try: m except e => h]; every handler of the module ends in a bare
    [raise], which the handler writes out as [raise e]. *)
Definition try_except {A} (m : M A) (h : exn → M A) : M A :=
  match m with
  | (tr, inl e) => let '(tr', r) := h e in (tr ++ tr', r)
  | (tr, inr x) => (tr, inr x)
  end.

(** stdpp's monad notations: [x ← m; k] and [m;; k]. *)
#[global] Instance M_ret : MRet M := @ret.
#[global] Instance M_bind : MBind M := λ A B k m, bind m k.

Definition trace {A} (m : M A) : list event := fst m.
Definition outcome {A} (m : M A) : exn + A := snd m.

(** Lifts the answer of a library call. *)
Definition lift {A} (r : exn + A) : M A := ([], r).

Definition is_post (ev : event) : bool :=
  match ev with Post _ _ _ => true | _ => false end.
Definition is_make_client (ev : event) : bool :=
  match ev with MakeClient _ => true | _ => false end.

(** ** Data model *)

(** [uuid.UUID]: a 128-bit integer. *)
Record UUID := mkUUID { int : N }.

(** Modelled from the spec: [src.core.enums.TransactionStatus] is not under
    src/; the spec lists COMPLETED, CANCELED and "other statuses defined
    elsewhere", which [OtherStatus] stands for. *)
Inductive TransactionStatus :=
| COMPLETED
| CANCELED
| OtherStatus (name : string).

(** Modelled from the spec: the DTOs of
    [src.infrastructure.database.models.dto] are not under src/.  The
    settings are "polymorphic over provider type"; the Platega variant
    carries [merchant_id] and [api_secret], both optional as the
    [union-attr] and [dict-item] annotations of the adapter show, and
    [api_secret] is a [SecretStr] ([get_secret_value] returns the string it
    wraps).  The other variants, and no settings at all, are [OtherSettings]
    with the name of their class. *)
Record PlategaGatewaySettingsDto := mkPlategaSettings {
  merchant_id : option string;
  api_secret : option string
}.

Inductive GatewaySettings :=
| PlategaSettings (s : PlategaGatewaySettingsDto)
| OtherSettings (class_name : string).

Record Currency := mkCurrency { value_of : string }.

Record PaymentGatewayDto := mkPaymentGatewayDto {
  currency : Currency;
  settings : GatewaySettings
}.

Record PaymentResult := mkPaymentResult {
  id : UUID;
  url : string
}.

(** Starlette's [Headers]: the raw list of the request's header lines, whose
    names an ASGI server delivers in lower case. *)
Record Request := mkRequest {
  headers : list (string * string);
  body : string
}.

(** ** What the adapter imports *)

(** The functions of the Python runtime and of the libraries that the
    adapter calls.  Each partial one answers [inl msg] where the Python
    function raises its documented exception with message [msg]. *)
Class Runtime := {
  (** [decimal.Decimal] and [str(amount)] *)
  Decimal : Type;
  str_Decimal : Decimal → string;
  (** [float(s)] for a [str]; raises [ValueError] *)
  float : string → string + spec_float;
  (** [repr(x)] *)
  repr : value → string;
  (** [orjson.loads(b)]; raises [orjson.JSONDecodeError] *)
  loads : string → string + value;
  (** [uuid.UUID(s)] for a [str]; raises [ValueError] *)
  UUID_of_str : string → string + UUID;
  (** [str(u)] for a [UUID] *)
  str_UUID : UUID → string;
  (** the message httpx gives the [HTTPStatusError] of a response *)
  status_error_message : Response → string;
  (** the collaborators handed to the constructor *)
  Bot : Type;
  AppConfig : Type
}.

(** What the outside world answers during one call: the random UUID that
    [uuid.uuid4()] draws, the provider's reaction to a request (a response,
    or an exception raised while sending), and the URL of the bot. *)
Record World := mkWorld {
  uuid4 : UUID;
  send : string → value → exn + Response;
  bot_redirect_url : string
}.

Section Gateway.
Context {rt : Runtime}.

(** [str(x)]: a [str] is itself, anything else prints as its [repr]. *)
Definition str (v : value) : string :=
  match v with
  | VStr s => s
  | _ => repr v
  end.

Definition str_bool (b : bool) : string := if b then "True" else "False".

(** [str(e)] for an exception: its message, and for a [KeyError] the [repr]
    of its message. *)
Definition str_exn (e : exn) : string :=
  match e with
  | KeyError msg => repr (VStr msg)
  | TypeError msg | ValueError msg | AttributeError msg
  | PermissionError msg | JSONDecodeError msg | RequestError msg
  | HTTPStatusError msg _ => msg
  end.

(** Raised by [x.attr] when the class of [x] has no attribute [attr]. *)
Definition no_attribute {A} (class attr : string) : M A :=
  raise (AttributeError
    ("'" +:+ class +:+ "' object has no attribute '" +:+ attr +:+ "'")).

(** [d.get(key)] *)
Definition get (d : value) (key : string) : M value :=
  match d with
  | VDict m => mret (default VNone (m !! key))
  | _ => no_attribute (type_name d) "get"
  end.

(** [UUID(x)]: the constructor begins with [x.replace], which only a [str]
    has. *)
Definition UUID_ (x : value) : M UUID :=
  match x with
  | VStr s =>
      match UUID_of_str s with
      | inl msg => raise (ValueError msg)
      | inr u => mret u
      end
  | _ => no_attribute (type_name x) "replace"
  end.

Definition float_ (s : string) : M spec_float :=
  match float s with
  | inl msg => raise (ValueError msg)
  | inr f => mret f
  end.

Definition orjson_loads (b : string) : M value :=
  match loads b with
  | inl msg => raise (JSONDecodeError msg)
  | inr v => mret v
  end.

(** [str.lower] on the letters A to Z, and [Headers.get]: the first header
    line whose name is the lower-cased key. *)
Definition lower_ascii (c : ascii) : ascii :=
  let n := N_of_ascii c in
  if ((65 <=? n) && (n <=? 90))%N then ascii_of_N (n + 32) else c.

Fixpoint lower (s : string) : string :=
  match s with
  | EmptyString => EmptyString
  | String c s' => String (lower_ascii c) (lower s')
  end.

Fixpoint headers_get (hs : list (string * string)) (key : string)
  : option string :=
  match hs with
  | [] => None
  | (k, v) :: hs' => if String.eqb k (lower key) then Some v
                     else headers_get hs' key
  end.

(** [response.raise_for_status()]: any status outside 200..299 raises. *)
Definition is_success (r : Response) : bool :=
  (200 <=? status_code r) && (status_code r <=? 299).

Definition raise_for_status (r : Response) : M unit :=
  if is_success r then mret tt
  else raise (HTTPStatusError (status_error_message r) r).

(** [client.post(path, json=payload)] *)
Definition post (client : AsyncClient) (w : World) (path : string)
    (json : value) : M Response :=
  tell (Post client path json);; lift (send w path json).

(** ** The adapter *)

Record PlategaGateway := mkPlategaGateway {
  data : PaymentGatewayDto;
  bot : Bot;
  config : AppConfig;
  _client : AsyncClient
}.

Definition API_BASE : string := "https://app.platega.io".
Definition DEFAULT_PAYMENT_METHOD : Z := 2.

(** [self.data.settings.merchant_id] and
    [self.data.settings.api_secret.get_secret_value()] *)
Definition settings_merchant_id (s : GatewaySettings) : M (option string) :=
  match s with
  | PlategaSettings p => mret (merchant_id p)
  | OtherSettings class => no_attribute class "merchant_id"
  end.

Definition settings_secret_value (s : GatewaySettings) : M string :=
  match s with
  | PlategaSettings p =>
      match api_secret p with
      | Some secret => mret secret
      | None => no_attribute "NoneType" "get_secret_value"
      end
  | OtherSettings class => no_attribute class "api_secret"
  end.

(** Modelled from the spec: [BasePaymentGateway] is not under src/.  Its
    [_make_client] "initializes an HTTP client scoped to the provider's
    base endpoint" with the given headers, its [_get_bot_redirect_url] is
    "an opaque dependency returning a string", and its [_get_webhook_data]
    is the step "parse JSON body". *)
Definition _make_client (base : string) (hs : list (string * option string))
  : M AsyncClient :=
  let client := mkAsyncClient base hs in
  tell (MakeClient client);; mret client.

Definition _get_bot_redirect_url (w : World) : M string :=
  mret (bot_redirect_url w).

Definition _get_webhook_data (request : Request) : M value :=
  orjson_loads (body request).

(** [PlategaGateway.__init__] *)
Definition __init__ (gateway : PaymentGatewayDto) (b : Bot) (c : AppConfig)
  : M PlategaGateway :=
  match settings gateway with
  | OtherSettings class =>
      raise (TypeError
        ("Invalid settings type: expected PlategaGatewaySettingsDto, got "
         +:+ class))
  | PlategaSettings s =>
      if negb (truthy_str (merchant_id s)) || negb (truthy_str (api_secret s))
      then raise (ValueError
        "Platega gateway requires merchant_id and api_secret to be configured")
      else
        secret ← settings_secret_value (settings gateway);
        client ← _make_client API_BASE
          [("X-MerchantId", merchant_id s);
           ("X-Secret", Some secret);
           ("Content-Type", Some "application/json")];
        mret (mkPlategaGateway gateway b c client)
  end.

(** [PlategaGateway._create_payment_payload]; the items of the dict display
    are evaluated in the order written. *)
Definition _create_payment_payload (self : PlategaGateway) (w : World)
    (amount order_id description : string) : M (gmap string value) :=
  return_url ← _get_bot_redirect_url w;
  amount_float ← float_ amount;
  mret (list_to_map
    [("paymentMethod", VInt DEFAULT_PAYMENT_METHOD);
     ("paymentDetails", VDict (list_to_map
        [("amount", VFloat amount_float);
         ("currency", VStr (value_of (currency (data self))))]));
     ("description", VStr description);
     ("return", VStr return_url);
     ("failedUrl", VStr return_url);
     ("payload", VStr order_id)]).

(** [PlategaGateway._get_payment_data] *)
Definition _get_payment_data (self : PlategaGateway) (data : value)
    (order_id : string) : M PaymentResult :=
  tell (Log DEBUG
    ("Processing Platega payment response. Order ID: " +:+ order_id));;
  transaction_id_str ← get data "transactionId";
  if negb (truthy transaction_id_str) then
    raise (KeyError
      "Invalid response from Platega API: missing 'transactionId'")
  else
    redirect_url ← get data "redirect";
    if negb (truthy redirect_url) then
      raise (KeyError "Invalid response from Platega API: missing 'redirect'")
    else
      transaction_id ← UUID_ transaction_id_str;
      mret (mkPaymentResult transaction_id (str redirect_url)).

(** The three [except] clauses of [handle_create_payment], tried in the
    order written; each logs and re-raises the exception it caught. *)
Definition create_payment_handler {A} (exception : exn) : M A :=
  match exception with
  | HTTPStatusError _ response =>
      tell (Log ERROR
        ("HTTP error creating Platega payment. Status: '"
         +:+ str (VInt (status_code response)) +:+ "', Body: "
         +:+ text response));;
      raise exception
  | KeyError _ | JSONDecodeError _ =>
      tell (Log ERROR
        ("Failed to parse Platega response. Error: " +:+ str_exn exception));;
      raise exception
  | _ =>
      tell (LogException
        ("An unexpected error occurred while creating Platega payment: "
         +:+ str_exn exception));;
      raise exception
  end.

(** [PlategaGateway.handle_create_payment] *)
Definition handle_create_payment (self : PlategaGateway) (w : World)
    (amount : Decimal) (details : string) : M PaymentResult :=
  let order_id := str_UUID (uuid4 w) in
  payload ← _create_payment_payload self w (str_Decimal amount) order_id
              details;
  try_except
    (response ← post (_client self) w "transaction/process" (VDict payload);
     raise_for_status response;;
     data ← orjson_loads (content response);
     _get_payment_data self data order_id)
    create_payment_handler.

(** [PlategaGateway._verify_webhook_headers] *)
Definition _verify_webhook_headers (self : PlategaGateway)
    (request : Request) : M bool :=
  let received_merchant_id := headers_get (headers request) "X-MerchantId" in
  let received_secret := headers_get (headers request) "X-Secret" in
  expected_merchant_id ← settings_merchant_id (settings (data self));
  expected_secret ← settings_secret_value (settings (data self));
  if negb (truthy_str received_merchant_id)
     || negb (truthy_str received_secret)
  then
    tell (Log WARNING "Platega webhook missing required headers");;
    mret false
  else
    let merchant_id_valid :=
      bool_decide (received_merchant_id = expected_merchant_id) in
    let secret_valid :=
      bool_decide (received_secret = Some expected_secret) in
    if negb merchant_id_valid || negb secret_valid then
      tell (Log CRITICAL
        ("Platega webhook verification failed. MerchantId match: "
         +:+ str_bool merchant_id_valid +:+ ", Secret match: "
         +:+ str_bool secret_valid));;
      mret false
    else mret true.

(** [PlategaGateway.handle_webhook]; the cases of the [match] statement are
    literal patterns, tried in the order written. *)
Definition handle_webhook (self : PlategaGateway) (request : Request)
  : M (UUID * TransactionStatus) :=
  tell (Log DEBUG "Received Platega webhook request");;
  verified ← _verify_webhook_headers self request;
  if negb verified then
    raise (PermissionError
      "Platega webhook verification failed: invalid headers")
  else
    webhook_data ← _get_webhook_data request;
    transaction_id_str ← get webhook_data "id";
    if negb (truthy transaction_id_str) then
      raise (ValueError "Required field 'id' is missing in webhook payload")
    else
      status ← get webhook_data "status";
      transaction_id ← UUID_ transaction_id_str;
      transaction_status ←
        (if eq_str status "CONFIRMED" then mret COMPLETED
         else if eq_str status "CANCELED" then mret CANCELED
         else if eq_str status "PENDING" then
           raise (ValueError
             ("Unexpected PENDING status in webhook. Transaction ID: "
              +:+ str transaction_id_str))
         else raise (ValueError ("Unsupported status: " +:+ str status)));
      tell (Log INFO
        ("Platega webhook processed successfully. Transaction ID: "
         +:+ str transaction_id_str +:+ ", Status: " +:+ str status));;
      mret (transaction_id, transaction_status).

End Gateway.

(** ** A runtime to evaluate the adapter on examples

    The theorems below hold for every [Runtime].  This instance serves to
    run the adapter on concrete requests and responses: a [Decimal] is given
    by the text [str] prints for it, [float] and [orjson.loads] know the
    sample texts listed here, and a UUID is read and printed in its
    canonical form of 32 hexadecimal digits in groups of 8-4-4-4-12. *)
Module Example.

Definition hex_value (c : ascii) : option N :=
  let n := N_of_ascii c in
  if ((48 <=? n) && (n <=? 57))%N then Some (n - 48)%N
  else if ((97 <=? n) && (n <=? 102))%N then Some (n - 87)%N
  else if ((65 <=? n) && (n <=? 70))%N then Some (n - 55)%N
  else None.

Fixpoint hex_to_N (acc : N) (s : string) : option N :=
  match s with
  | EmptyString => Some acc
  | String c s' =>
      match hex_value c with
      | Some d => hex_to_N (16 * acc + d)%N s'
      | None => None
      end
  end.

Fixpoint remove_hyphens (s : string) : string :=
  match s with
  | EmptyString => EmptyString
  | String c s' =>
      if Ascii.eqb c "-"%char then remove_hyphens s'
      else String c (remove_hyphens s')
  end.

Definition parse_uuid (s : string) : string + UUID :=
  let hex := remove_hyphens s in
  if negb (String.length hex =? 32)%nat then
    inl "badly formed hexadecimal UUID string"
  else
    match hex_to_N 0 hex with
    | Some n => inr (mkUUID n)
    | None => inl ("invalid literal for int() with base 16: '" +:+ hex +:+ "'")
    end.

Definition hex_digit (d : N) : ascii :=
  if (d <? 10)%N then ascii_of_N (48 + d) else ascii_of_N (87 + d).

Fixpoint to_hex (digits : nat) (n : N) : string :=
  match digits with
  | O => EmptyString
  | S k => to_hex k (n / 16)%N +:+ String (hex_digit (n mod 16)%N) EmptyString
  end.

Definition print_uuid (u : UUID) : string :=
  let hex := to_hex 32 (int u) in
  substring 0 8 hex +:+ "-" +:+ substring 8 4 hex +:+ "-"
  +:+ substring 12 4 hex +:+ "-" +:+ substring 16 4 hex +:+ "-"
  +:+ substring 20 12 hex.

(** The sample texts are written with an apostrophe for the double quote of
    JSON; [json] puts the double quotes back. *)
Fixpoint json (s : string) : string :=
  match s with
  | EmptyString => EmptyString
  | String c s' =>
      String (if Ascii.eqb c "'"%char then ascii_of_N 34 else c) (json s')
  end.

Definition sample_id : string := "3f2b8c1e-5d4a-4e6f-9a7b-0c1d2e3f4a5b".
Definition sample_uuid : UUID :=
  mkUUID 83967474442428021070098470749182315099.

Definition sample_floats : list (string * spec_float) :=
  [("10.00", S754_finite false 5629499534213120 (-49));
   ("0", S754_zero false)].

(** Webhook bodies. *)
Definition confirmed_body : string :=
  json "{'id':'3f2b8c1e-5d4a-4e6f-9a7b-0c1d2e3f4a5b','status':'CONFIRMED'}".
Definition confirmed_doc : gmap string value :=
  list_to_map [("id", VStr sample_id); ("status", VStr "CONFIRMED")].

Definition canceled_body : string :=
  json "{'id':'3f2b8c1e-5d4a-4e6f-9a7b-0c1d2e3f4a5b','status':'CANCELED'}".
Definition canceled_doc : gmap string value :=
  list_to_map [("id", VStr sample_id); ("status", VStr "CANCELED")].

Definition pending_body : string :=
  json "{'id':'3f2b8c1e-5d4a-4e6f-9a7b-0c1d2e3f4a5b','status':'PENDING'}".
Definition pending_doc : gmap string value :=
  list_to_map [("id", VStr sample_id); ("status", VStr "PENDING")].

Definition no_status_body : string :=
  json "{'id':'3f2b8c1e-5d4a-4e6f-9a7b-0c1d2e3f4a5b'}".
Definition no_status_doc : gmap string value :=
  list_to_map [("id", VStr sample_id)].

Definition bad_id_body : string :=
  json "{'id':'not-a-uuid','status':'CONFIRMED'}".
Definition bad_id_doc : gmap string value :=
  list_to_map [("id", VStr "not-a-uuid"); ("status", VStr "CONFIRMED")].

Definition no_id_body : string := json "{'status':'CONFIRMED'}".
Definition no_id_doc : gmap string value :=
  list_to_map [("status", VStr "CONFIRMED")].

(** Bodies of the provider's responses. *)
Definition created_body : string :=
  json "{'transactionId':'3f2b8c1e-5d4a-4e6f-9a7b-0c1d2e3f4a5b','redirect':'https://pay.example/x'}".
Definition created_doc : gmap string value :=
  list_to_map [("transactionId", VStr sample_id);
               ("redirect", VStr "https://pay.example/x")].

Definition no_transaction_body : string :=
  json "{'redirect':'https://pay.example/x'}".
Definition no_transaction_doc : gmap string value :=
  list_to_map [("redirect", VStr "https://pay.example/x")].

Definition sample_documents : list (string * value) :=
  [(confirmed_body, VDict confirmed_doc);
   (canceled_body, VDict canceled_doc);
   (pending_body, VDict pending_doc);
   (no_status_body, VDict no_status_doc);
   (bad_id_body, VDict bad_id_doc);
   (no_id_body, VDict no_id_doc);
   (created_body, VDict created_doc);
   (no_transaction_body, VDict no_transaction_doc)].

Fixpoint assoc {A} (l : list (string * A)) (k : string) : option A :=
  match l with
  | [] => None
  | (k', x) :: l' => if String.eqb k' k then Some x else assoc l' k
  end.

Definition repr_value (v : value) : string :=
  match v with
  | VNone => "None"
  | VBool b => if b then "True" else "False"
  | VInt n => pretty n
  | VStr s => "'" +:+ s +:+ "'"
  | VFloat _ | VList _ | VDict _ => "<" +:+ type_name v +:+ ">"
  end.

#[local] Instance runtime : Runtime := {|
  Decimal := string;
  str_Decimal := λ d, d;
  float := λ s, match assoc sample_floats s with
                | Some f => inr f
                | None => inl ("could not convert string to float: '"
                               +:+ s +:+ "'")
                end;
  repr := repr_value;
  loads := λ b, match assoc sample_documents b with
                | Some v => inr v
                | None => inl "unexpected character: line 1 column 1 (char 0)"
                end;
  UUID_of_str := parse_uuid;
  str_UUID := print_uuid;
  status_error_message := λ r, "HTTP status " +:+ pretty (status_code r);
  Bot := unit;
  AppConfig := unit
|}.

Definition sample_gateway : PaymentGatewayDto :=
  mkPaymentGatewayDto (mkCurrency "RUB")
    (PlategaSettings (mkPlategaSettings (Some "merchant-1") (Some "s3cr3t"))).

Definition sample_client : AsyncClient :=
  mkAsyncClient API_BASE
    [("X-MerchantId", Some "merchant-1"); ("X-Secret", Some "s3cr3t");
     ("Content-Type", Some "application/json")].

Definition sample_bot : Bot := tt.
Definition sample_config : AppConfig := tt.

Definition sample_self : PlategaGateway :=
  mkPlategaGateway sample_gateway sample_bot sample_config sample_client.

Definition sample_settings : PlategaGatewaySettingsDto :=
  mkPlategaSettings (Some "merchant-1") (Some "s3cr3t").

Definition other_gateway : PaymentGatewayDto :=
  mkPaymentGatewayDto (mkCurrency "RUB")
    (OtherSettings "YookassaGatewaySettingsDto").

Definition sample_headers : list (string * string) :=
  [("content-type", "application/json"); ("x-merchantid", "merchant-1");
   ("x-secret", "s3cr3t")].

Definition webhook (b : string) : Request := mkRequest sample_headers b.

(** A request without the X-Secret header. *)
Definition unsigned_webhook : Request :=
  mkRequest [("content-type", "application/json");
             ("x-merchantid", "merchant-1")] confirmed_body.

(** A world in which the provider answers every request with status 200
    and the given body. *)
Definition answering (b : string) : World :=
  mkWorld (mkUUID 1311768467463790320) (λ _ _, inr (mkResponse 200 b b))
    "https://t.me/shop_bot".

End Example.

(** Further samples: texts that decode to documents off the expected
    shape, and worlds in which the provider refuses or cannot be reached.
    The runtime is that of [Example] with these texts added to what
    [orjson.loads] knows. *)
Module More.
Import Example.

Definition numeric_id_body : string := json "{'id':5,'status':'PENDING'}".
Definition numeric_id_doc : gmap string value :=
  list_to_map [("id", VInt 5); ("status", VStr "PENDING")].

Definition annotated_body : string :=
  json "{'id':'3f2b8c1e-5d4a-4e6f-9a7b-0c1d2e3f4a5b','status':'CONFIRMED','amount':10}".
Definition annotated_doc : gmap string value :=
  list_to_map [("id", VStr sample_id); ("status", VStr "CONFIRMED");
               ("amount", VInt 10)].

Definition bad_transaction_body : string :=
  json "{'transactionId':'not-a-uuid','redirect':'https://pay.example/x'}".
Definition bad_transaction_doc : gmap string value :=
  list_to_map [("transactionId", VStr "not-a-uuid");
               ("redirect", VStr "https://pay.example/x")].

Definition list_body : string := "[]".

Definition more_documents : list (string * value) :=
  [(numeric_id_body, VDict numeric_id_doc);
   (annotated_body, VDict annotated_doc);
   (bad_transaction_body, VDict bad_transaction_doc);
   (list_body, VList [])].

#[local] Instance runtime : Runtime := {|
  Decimal := string;
  str_Decimal := λ d, d;
  float := float (Runtime := Example.runtime);
  repr := repr_value;
  loads := λ b, match assoc more_documents b with
                | Some v => inr v
                | None => loads (Runtime := Example.runtime) b
                end;
  UUID_of_str := parse_uuid;
  str_UUID := print_uuid;
  status_error_message :=
    status_error_message (Runtime := Example.runtime);
  Bot := unit;
  AppConfig := unit
|}.

Definition sample_bot : Bot := tt.
Definition sample_config : AppConfig := tt.

Definition sample_self : PlategaGateway :=
  mkPlategaGateway sample_gateway sample_bot sample_config sample_client.

(** A world in which the provider answers every request with status 402
    and the given body, and one in which it cannot be reached. *)
Definition refusing (b : string) : World :=
  mkWorld (mkUUID 1311768467463790320) (λ _ _, inr (mkResponse 402 b b))
    "https://t.me/shop_bot".

Definition unreachable : World :=
  mkWorld (mkUUID 1311768467463790320)
    (λ _ _, inl (RequestError "All connection attempts failed"))
    "https://t.me/shop_bot".

(** A webhook with the right X-MerchantId and an empty X-Secret. *)
Definition empty_secret_webhook : Request :=
  mkRequest [("x-merchantid", "merchant-1"); ("x-secret", "")]
    confirmed_body.

End More.

(** ** Vocabulary of the statements *)

(** A header or credential is empty when it is missing or the empty
    string: exactly when [not x] holds. *)
Definition empty (o : option string) : Prop := o = None ∨ o = Some "".

(** The requests a run has sent. *)
Definition posts {A} (m : M A) : list event := filter is_post (trace m).

(** The kinds of journal entries: a record handed to the logger, the INFO
    record of a success, a record of a failure ([logger.error] and
    [logger.exception]). *)
Definition is_log (ev : event) : bool :=
  match ev with Log _ _ | LogException _ => true | _ => false end.
Definition is_info (ev : event) : bool :=
  match ev with Log INFO _ => true | _ => false end.
Definition is_error_record (ev : event) : bool :=
  match ev with Log ERROR _ | LogException _ => true | _ => false end.

(** ** Properties *)

Section Properties.
Context {rt : Runtime}.

(** *** Equations of the monad *)

Lemma bind_mret {A B} (x : A) (k : A → M B) : (mret x ≫= k) = k x.
Proof. unfold mbind, M_bind, mret, M_ret, bind, ret. by destruct (k x). Qed.

Lemma bind_raise {A B} (e : exn) (k : A → M B) : (raise e ≫= k) = raise e.
Proof. reflexivity. Qed.

Lemma bind_tell {B} (ev : event) (k : unit → M B) :
  (tell ev ≫= k) = (ev :: trace (k tt), outcome (k tt)).
Proof. unfold mbind, M_bind, bind, tell. by destruct (k tt). Qed.

Lemma bind_assoc {A B C} (m : M A) (k : A → M B) (k' : B → M C) :
  ((m ≫= k) ≫= k') = (m ≫= λ x, k x ≫= k').
Proof.
  unfold mbind, M_bind, bind. destruct m as [tr [e|x]]; [done|].
  destruct (k x) as [tr' [e|y]]; [done|].
  destruct (k' y) as [tr'' r]. by rewrite app_assoc.
Qed.

Lemma bind_pure {A B} (x : A) (k : A → M B) :
  ((([], inr x) : M A) ≫= k) = k x.
Proof. apply bind_mret. Qed.

Lemma bind_failed {A B} (tr : list event) (e : exn) (k : A → M B) :
  (((tr, inl e) : M A) ≫= k) = (tr, inl e).
Proof. reflexivity. Qed.

Lemma try_except_tell {A} (ev : event) (k : unit → M A) (h : exn → M A) :
  try_except (tell ev ≫= k) h =
    (ev :: trace (try_except (k tt) h), outcome (try_except (k tt) h)).
Proof.
  rewrite bind_tell. unfold try_except. destruct (k tt) as [tr [e|x]]; simpl.
  - by destruct (h e).
  - done.
Qed.

Lemma bind_no_attribute {A B} (class attr : string) (k : A → M B) :
  (no_attribute class attr ≫= k) = no_attribute class attr.
Proof. reflexivity. Qed.

Lemma trace_pair {A} (tr : list event) (r : exn + A) : trace (tr, r) = tr.
Proof. reflexivity. Qed.

Lemma outcome_pair {A} (tr : list event) (r : exn + A) : outcome (tr, r) = r.
Proof. reflexivity. Qed.

Create Rewrite HintDb monad.
#[local] Hint Rewrite @bind_mret @bind_raise @bind_tell @bind_pure
  @bind_failed @try_except_tell @bind_no_attribute
  @trace_pair @outcome_pair : monad.

Ltac run := autorewrite with monad.

Lemma truthy_str_false (o : option string) :
  truthy_str o = false ↔ empty o.
Proof.
  unfold empty. destruct o as [s|]; simpl.
  - rewrite negb_false_iff, String.eqb_eq. split.
    + intros ->. by right.
    + intros [[=]|[= ->]]. done.
  - split; [by left|done].
Qed.

Lemma truthy_str_true (o : option string) :
  truthy_str o = true ↔ ∃ s, o = Some s ∧ s ≠ "".
Proof.
  destruct o as [s|]; simpl.
  - rewrite negb_true_iff, String.eqb_neq. split.
    + intros Hs. by exists s.
    + by intros (s' & [= ->] & Hs).
  - split; [done|]. by intros (s & [=] & _).
Qed.

(** *** Construction *)

(** What a successful construction establishes: the settings are those of
    Platega with both credentials present and non-empty, and the one event
    of the run is the creation of the client. *)
Lemma init_returns gateway b c self :
  outcome (__init__ gateway b c) = inr self →
  ∃ m s, settings (data self) =
           PlategaSettings (mkPlategaSettings (Some m) (Some s))
         ∧ m ≠ "" ∧ s ≠ "" ∧ data self = gateway
         ∧ trace (__init__ gateway b c) = [MakeClient (_client self)].
Proof.
  unfold __init__. destruct (settings gateway) as [[m s]|class] eqn:Hs;
    [|discriminate].
  simpl. destruct (truthy_str m) eqn:Hm; [|discriminate].
  destruct (truthy_str s) eqn:Hsec; [|discriminate].
  apply truthy_str_true in Hm as (m' & -> & Hm').
  apply truthy_str_true in Hsec as (s' & -> & Hs').
  simpl. intros [= <-]. exists m', s'. simpl. rewrite Hs. done.
Qed.

(** C3: construction fails with [TypeError] whenever the settings are not the
    Platega variant, whatever else the gateway record holds, and with
    [ValueError] whenever they are and [merchant_id] or [api_secret] is
    empty; a construction that fails has created no HTTP client, indeed has
    done nothing observable; and it fails in no other case. *)
Theorem init_failure (gateway : PaymentGatewayDto) (b : Bot) (c : AppConfig) :
  (∀ class, settings gateway = OtherSettings class →
     ∃ msg, outcome (__init__ gateway b c) = inl (TypeError msg))
  ∧ (∀ p, settings gateway = PlategaSettings p →
       empty (merchant_id p) ∨ empty (api_secret p) →
       ∃ msg, outcome (__init__ gateway b c) = inl (ValueError msg))
  ∧ (∀ e, outcome (__init__ gateway b c) = inl e →
       trace (__init__ gateway b c) = []
       ∧ filter is_make_client (trace (__init__ gateway b c)) = []
       ∧ ((∃ class, settings gateway = OtherSettings class)
          ∨ (∃ p, settings gateway = PlategaSettings p
                  ∧ (empty (merchant_id p) ∨ empty (api_secret p))))).
Proof.
  unfold __init__. split; [|split].
  - intros class ->. by eexists.
  - intros p -> Hempty.
    assert (negb (truthy_str (merchant_id p))
            || negb (truthy_str (api_secret p)) = true) as ->; [|by eexists].
    rewrite orb_true_iff, !negb_true_iff, !truthy_str_false. done.
  - intros e. destruct (settings gateway) as [p|class] eqn:Hs.
    + destruct (negb (truthy_str (merchant_id p))
                || negb (truthy_str (api_secret p))) eqn:Hcheck.
      * intros _. split; [done|split; [done|]]. right. exists p.
        rewrite orb_true_iff, !negb_true_iff, !truthy_str_false in Hcheck.
        done.
      * apply orb_false_iff in Hcheck as [_ Hsec].
        apply negb_false_iff, truthy_str_true in Hsec as (s & Hsec & _).
        simpl. rewrite Hsec. discriminate.
    + intros _. split; [done|split; [done|]]. left. by exists class.
Qed.

(** *** Verification of a webhook *)

(** What [_verify_webhook_headers] computes for an adapter whose settings
    hold both credentials. *)
Lemma verify_eval self request m s :
  settings (data self) = PlategaSettings (mkPlategaSettings (Some m) (Some s)) →
  let received_merchant_id := headers_get (headers request) "X-MerchantId" in
  let received_secret := headers_get (headers request) "X-Secret" in
  _verify_webhook_headers self request =
    if negb (truthy_str received_merchant_id)
       || negb (truthy_str received_secret)
    then ([Log WARNING "Platega webhook missing required headers"], inr false)
    else if negb (bool_decide (received_merchant_id = Some m))
            || negb (bool_decide (received_secret = Some s))
    then ([Log CRITICAL
            ("Platega webhook verification failed. MerchantId match: "
             +:+ str_bool (bool_decide (received_merchant_id = Some m))
             +:+ ", Secret match: "
             +:+ str_bool (bool_decide (received_secret = Some s)))],
          inr false)
    else ([], inr true).
Proof.
  intros Hs. unfold _verify_webhook_headers. rewrite Hs.
  unfold settings_merchant_id, settings_secret_value. simpl merchant_id.
  simpl api_secret. run.
  destruct (negb (truthy_str _) || negb (truthy_str _)); run; [done|].
  destruct (negb (bool_decide _) || negb (bool_decide _)); by run.
Qed.

(** [handle_webhook] after a verification that answered [false]. *)
Lemma handle_webhook_unverified self request tr :
  _verify_webhook_headers self request = (tr, inr false) →
  handle_webhook self request =
    (Log DEBUG "Received Platega webhook request" :: tr,
     inl (PermissionError
            "Platega webhook verification failed: invalid headers")).
Proof.
  intros Hv. unfold handle_webhook. run. rewrite Hv.
  unfold mbind, M_bind, bind. simpl. by rewrite app_nil_r.
Qed.

(** [handle_webhook] after a verification that answered [true], on a body
    that decodes to a dict: the decision tree of the method. *)
Lemma handle_webhook_verified self request tr d :
  _verify_webhook_headers self request = (tr, inr true) →
  loads (body request) = inr (VDict d) →
  let transaction_id_str := default VNone (d !! "id") in
  let status := default VNone (d !! "status") in
  let start := Log DEBUG "Received Platega webhook request" :: tr in
  handle_webhook self request =
    if negb (truthy transaction_id_str) then
      (start,
       inl (ValueError "Required field 'id' is missing in webhook payload"))
    else
      match outcome (UUID_ transaction_id_str) with
      | inl e => (start, inl e)
      | inr transaction_id =>
          if eq_str status "CONFIRMED" then
            (start ++ [Log INFO
               ("Platega webhook processed successfully. Transaction ID: "
                +:+ str transaction_id_str +:+ ", Status: " +:+ str status)],
             inr (transaction_id, COMPLETED))
          else if eq_str status "CANCELED" then
            (start ++ [Log INFO
               ("Platega webhook processed successfully. Transaction ID: "
                +:+ str transaction_id_str +:+ ", Status: " +:+ str status)],
             inr (transaction_id, CANCELED))
          else if eq_str status "PENDING" then
            (start,
             inl (ValueError
               ("Unexpected PENDING status in webhook. Transaction ID: "
                +:+ str transaction_id_str)))
          else
            (start, inl (ValueError ("Unsupported status: " +:+ str status)))
      end.
Proof.
  intros Hv Hbody. unfold handle_webhook. run. rewrite Hv.
  unfold _get_webhook_data, orjson_loads. rewrite Hbody.
  unfold mbind at 1. unfold M_bind, bind. simpl negb. cbv iota beta.
  run. unfold get. run.
  destruct (negb (truthy _)); run; simpl; [by rewrite app_nil_r|].
  destruct (default VNone (d !! "id")) as [| | | |s| |]; simpl;
    try by rewrite app_nil_r.
  destruct (UUID_of_str s) as [msg|u]; simpl; [by rewrite app_nil_r|].
  run. repeat (destruct (eq_str _ _); run; simpl; [try done; by rewrite app_nil_r|]).
  by rewrite app_nil_r.
Qed.

(** Past the verification no step raises [PermissionError]. *)
Lemma handle_webhook_verified_no_permission_error self request tr msg :
  _verify_webhook_headers self request = (tr, inr true) →
  outcome (handle_webhook self request) ≠ inl (PermissionError msg).
Proof.
  intros Hv. destruct (loads (body request)) as [err|v] eqn:Hbody.
  - unfold handle_webhook. run. rewrite Hv.
    unfold _get_webhook_data, orjson_loads. rewrite Hbody. done.
  - destruct v as [| | | | | |d];
      try (unfold handle_webhook; run; rewrite Hv;
           unfold _get_webhook_data, orjson_loads; rewrite Hbody; done).
    rewrite (handle_webhook_verified _ _ _ _ Hv Hbody).
    destruct (negb (truthy _)); [done|].
    destruct (default VNone (d !! "id")) as [| | | |s| |]; try done.
    simpl. destruct (UUID_of_str s); [done|]. simpl.
    repeat (destruct (eq_str _ _); [done|]). done.
Qed.

(** C2: for a constructed adapter, [handle_webhook] raises [PermissionError]
    if and only if [_verify_webhook_headers] answers [False]; it answers
    [False] exactly when X-MerchantId or X-Secret is missing or a header
    that is present differs from the configured [merchant_id] or
    [api_secret]; when a header is missing the answer is [False] with one
    WARNING record whatever the adapter's credentials are; and an X-Secret
    that differs from the configured one is refused whatever X-MerchantId
    is, with one CRITICAL record when both headers are non-empty. *)
Theorem webhook_authorization gateway b c self request :
  outcome (__init__ gateway b c) = inr self →
  let received_merchant_id := headers_get (headers request) "X-MerchantId" in
  let received_secret := headers_get (headers request) "X-Secret" in
  ∃ m s,
    settings gateway = PlategaSettings (mkPlategaSettings (Some m) (Some s))
    ∧ ((∃ msg, outcome (handle_webhook self request)
               = inl (PermissionError msg))
       ↔ outcome (_verify_webhook_headers self request) = inr false)
    ∧ (outcome (_verify_webhook_headers self request) = inr false
       ↔ received_merchant_id = None ∨ received_secret = None
         ∨ (∃ r, received_merchant_id = Some r ∧ r ≠ m)
         ∨ (∃ r, received_secret = Some r ∧ r ≠ s))
    ∧ (outcome (_verify_webhook_headers self request) = inr true
       ↔ received_merchant_id = Some m ∧ received_secret = Some s)
    ∧ (received_merchant_id = None ∨ received_secret = None →
       ∀ gateway' b' c' self',
         outcome (__init__ gateway' b' c') = inr self' →
         _verify_webhook_headers self' request =
           ([Log WARNING "Platega webhook missing required headers"],
            inr false))
    ∧ (∀ r, received_secret = Some r → r ≠ s →
         outcome (_verify_webhook_headers self request) = inr false
         ∧ (r ≠ "" → truthy_str received_merchant_id = true →
            ∃ msg, trace (_verify_webhook_headers self request)
                   = [Log CRITICAL msg])).
Proof.
  intros Hinit rm rs.
  destruct (init_returns _ _ _ _ Hinit) as (m & s & Hs & Hm & Hsec & Hd & _).
  exists m, s. split; [by rewrite <- Hd|].
  pose proof (verify_eval self request m s Hs) as Hv. simpl in Hv.
  fold rm rs in Hv.
  assert (outcome (_verify_webhook_headers self request) = inr false
          ↔ rm = None ∨ rs = None ∨ (∃ r, rm = Some r ∧ r ≠ m)
            ∨ (∃ r, rs = Some r ∧ r ≠ s)) as Hfalse.
  { rewrite Hv. destruct rm as [r1|]; [|split; [intros _; by left|done]].
    destruct rs as [r2|];
      [|simpl; rewrite orb_true_r; split; [intros _; right; by left|done]].
    simpl.
    destruct (decide (r1 = "")) as [->|Hr1].
    { simpl. split; [intros _|done]. right; right; left. by exists "". }
    destruct (decide (r2 = "")) as [->|Hr2].
    { rewrite orb_true_r. split; [intros _|done].
      right; right; right. by exists "". }
    apply String.eqb_neq in Hr1 as Hr1', Hr2 as Hr2'. rewrite Hr1', Hr2'.
    simpl. destruct (decide (r1 = m)) as [->|Hne1];
      destruct (decide (r2 = s)) as [->|Hne2];
      repeat (rewrite bool_decide_eq_true_2 by done);
      repeat (rewrite bool_decide_eq_false_2 by congruence); simpl.
    - split; [done|]. intros [[=]|[[=]|[(r & [= <-] & ?)|(r & [= <-] & ?)]]];
        done.
    - split; [intros _|done]. right; right; right. by exists r2.
    - split; [intros _|done]. right; right; left. by exists r1.
    - split; [intros _|done]. right; right; left. by exists r1. }
  assert (outcome (_verify_webhook_headers self request) = inr true
          ↔ rm = Some m ∧ rs = Some s) as Htrue.
  { split.
    - intros Ht. destruct rm as [r1|] eqn:Hrm; [|by rewrite Hv in Ht].
      destruct rs as [r2|] eqn:Hrs;
        [|by rewrite Hv, orb_true_r in Ht].
      destruct (decide (r1 = m)) as [->|Hne1].
      + destruct (decide (r2 = s)) as [->|Hne2]; [done|].
        assert (outcome (_verify_webhook_headers self request) = inr false)
          as Hf; [|congruence].
        apply Hfalse. right; right; right. by exists r2.
      + assert (outcome (_verify_webhook_headers self request) = inr false)
          as Hf; [|congruence].
        apply Hfalse. right; right; left. by exists r1.
    - intros [-> ->]. rewrite Hv. simpl.
      apply String.eqb_neq in Hm as ->, Hsec as ->. simpl.
      by rewrite !bool_decide_eq_true_2. }
  split; [|split; [done|split; [done|split]]].
  - split.
    + intros [msg Hmsg].
      destruct (_verify_webhook_headers self request) as [tr [e|[]]] eqn:Hr;
        [by repeat case_match| |done].
      by destruct (handle_webhook_verified_no_permission_error
                     self request tr msg Hr).
    + intros Hf.
      destruct (_verify_webhook_headers self request) as [tr r] eqn:Hr.
      simpl in Hf. subst r.
      rewrite (handle_webhook_unverified _ _ _ Hr). by eexists.
  - intros Hmissing gateway' b' c' self' Hinit'.
    destruct (init_returns _ _ _ _ Hinit')
      as (m' & s' & Hs' & _ & _ & _ & _).
    rewrite (verify_eval self' request m' s' Hs').
    fold rm rs. by destruct Hmissing as [-> | ->]; [|rewrite orb_true_r].
  - intros r Hr Hne. split.
    + apply Hfalse. right; right; right. by exists r.
    + intros Hnonempty Htruthy. rewrite Hv, Htruthy, Hr. simpl.
      apply String.eqb_neq in Hnonempty as ->. simpl.
      rewrite (bool_decide_eq_false_2 (Some r = Some s)) by congruence.
      rewrite orb_true_r. by eexists.
Qed.

(** *** Interpretation of a webhook *)

Lemma outcome_eq {A} (m : M A) (r : exn + A) :
  outcome m = r → m = (trace m, r).
Proof. destruct m. simpl. by intros ->. Qed.

(** Whatever [handle_webhook] returns carries COMPLETED or CANCELED. *)
Lemma handle_webhook_returns self request u st :
  outcome (handle_webhook self request) = inr (u, st) →
  st = COMPLETED ∨ st = CANCELED.
Proof.
  destruct (_verify_webhook_headers self request) as [tr [e|[]]] eqn:Hv.
  - unfold handle_webhook. run. by rewrite Hv.
  - destruct (loads (body request)) as [err|v] eqn:Hbody.
    { unfold handle_webhook. run. rewrite Hv.
      unfold _get_webhook_data, orjson_loads. by rewrite Hbody. }
    destruct v as [| | | | | |d];
      try (unfold handle_webhook; run; rewrite Hv;
           unfold _get_webhook_data, orjson_loads; rewrite Hbody; done).
    rewrite (handle_webhook_verified _ _ _ _ Hv Hbody).
    destruct (negb (truthy _)); [done|].
    destruct (outcome (UUID_ _)); [done|].
    destruct (eq_str _ "CONFIRMED"); [intros [= _ <-]; by left|].
    destruct (eq_str _ "CANCELED"); [intros [= _ <-]; by right|].
    by destruct (eq_str _ "PENDING").
  - by rewrite (handle_webhook_unverified _ _ _ Hv).
Qed.

(** A constructed adapter accepts the headers that carry its own
    credentials. *)
Lemma verify_accepts gateway b c self request p :
  outcome (__init__ gateway b c) = inr self →
  settings gateway = PlategaSettings p →
  headers_get (headers request) "X-MerchantId" = merchant_id p →
  headers_get (headers request) "X-Secret" = api_secret p →
  _verify_webhook_headers self request = ([], inr true).
Proof.
  intros Hinit Hp Hrm Hrs.
  destruct (init_returns _ _ _ _ Hinit) as (m & s & Hs & Hm & Hsec & Hd & _).
  rewrite (verify_eval self request m s Hs).
  rewrite Hd, Hp in Hs. injection Hs as ->. simpl in Hrm, Hrs.
  rewrite Hrm, Hrs. simpl.
  apply String.eqb_neq in Hm as ->, Hsec as ->. simpl.
  by rewrite !bool_decide_eq_true_2.
Qed.

(** C1: a request whose X-MerchantId and X-Secret headers equal the
    credentials of the constructed adapter and whose body is a JSON object
    with a non-empty string [id] that reads as the UUID [u] makes
    [handle_webhook] return [(u, COMPLETED)] when [status] is CONFIRMED and
    [(u, CANCELED)] when it is CANCELED; and whenever [handle_webhook]
    returns, for any adapter and request, the status returned is COMPLETED
    or CANCELED. *)
Theorem webhook_status_mapping gateway b c self request p d tid u :
  outcome (__init__ gateway b c) = inr self →
  settings gateway = PlategaSettings p →
  headers_get (headers request) "X-MerchantId" = merchant_id p →
  headers_get (headers request) "X-Secret" = api_secret p →
  loads (body request) = inr (VDict d) →
  d !! "id" = Some (VStr tid) → tid ≠ "" → UUID_of_str tid = inr u →
  (d !! "status" = Some (VStr "CONFIRMED") →
     outcome (handle_webhook self request) = inr (u, COMPLETED))
  ∧ (d !! "status" = Some (VStr "CANCELED") →
       outcome (handle_webhook self request) = inr (u, CANCELED))
  ∧ (∀ self' request' u' st,
       outcome (handle_webhook self' request') = inr (u', st) →
       st = COMPLETED ∨ st = CANCELED).
Proof.
  intros Hinit Hp Hrm Hrs Hbody Hid Htid Hu.
  pose proof (verify_accepts _ _ _ _ _ _ Hinit Hp Hrm Hrs) as Hv.
  pose proof (handle_webhook_verified _ _ _ _ Hv Hbody) as Hw.
  simpl in Hw. rewrite Hid in Hw. simpl in Hw. rewrite Hu in Hw.
  apply String.eqb_neq in Htid. rewrite Htid in Hw. simpl in Hw.
  split; [|split].
  - intros Hst. rewrite Hw, Hst. reflexivity.
  - intros Hst. rewrite Hw, Hst. reflexivity.
  - apply handle_webhook_returns.
Qed.

(** C6: past the verification, with a non-empty string [id], a [status]
    that is neither CONFIRMED nor CANCELED makes [handle_webhook] raise
    [ValueError]; nothing is returned and nothing is logged after the
    verification.  When the [id] reads as a UUID, PENDING raises the error
    of its own case and every other value that of the default case. *)
Theorem webhook_rejects_other_status self request d tid status :
  outcome (_verify_webhook_headers self request) = inr true →
  loads (body request) = inr (VDict d) →
  d !! "id" = Some (VStr tid) → tid ≠ "" →
  d !! "status" = Some status →
  status ≠ VStr "CONFIRMED" → status ≠ VStr "CANCELED" →
  (∃ msg, outcome (handle_webhook self request) = inl (ValueError msg))
  ∧ trace (handle_webhook self request) =
      Log DEBUG "Received Platega webhook request"
      :: trace (_verify_webhook_headers self request)
  ∧ (∀ u, UUID_of_str tid = inr u →
       outcome (handle_webhook self request) =
         inl (ValueError
           (if eq_str status "PENDING"
            then "Unexpected PENDING status in webhook. Transaction ID: "
                 +:+ tid
            else "Unsupported status: " +:+ str status))).
Proof.
  intros Hv Hbody Hid Htid Hst Hne1 Hne2. apply outcome_eq in Hv.
  rewrite (handle_webhook_verified _ _ _ _ Hv Hbody). simpl.
  rewrite Hid, Hst. simpl. apply String.eqb_neq in Htid as ->. simpl.
  assert (eq_str status "CONFIRMED" = false) as ->.
  { destruct status; try done. simpl. apply String.eqb_neq. congruence. }
  assert (eq_str status "CANCELED" = false) as ->.
  { destruct status; try done. simpl. apply String.eqb_neq. congruence. }
  destruct (UUID_of_str tid) as [msg|u]; simpl.
  - split; [by eexists|]. split; [done|]. by intros u [=].
  - destruct (eq_str status "PENDING"); simpl;
      (split; [by eexists|]; split; [done|]; by intros u' _).
Qed.

(** C7: past the verification, a JSON object whose [id] is missing or empty
    makes [handle_webhook] raise the [ValueError] of the missing field,
    whatever the status is and before anything else happens. *)
Theorem webhook_requires_id self request d :
  outcome (_verify_webhook_headers self request) = inr true →
  loads (body request) = inr (VDict d) →
  d !! "id" = None ∨ (∃ v, d !! "id" = Some v ∧ truthy v = false) →
  handle_webhook self request =
    (Log DEBUG "Received Platega webhook request"
       :: trace (_verify_webhook_headers self request),
     inl (ValueError "Required field 'id' is missing in webhook payload")).
Proof.
  intros Hv Hbody Hid. apply outcome_eq in Hv.
  rewrite (handle_webhook_verified _ _ _ _ Hv Hbody). simpl.
  by destruct Hid as [->|(v & -> & Hfalse)]; simpl; [|rewrite Hfalse].
Qed.

(** C9: past the verification, with a non-empty string [id], a JSON object
    without a [status] key makes [handle_webhook] raise [ValueError]; when
    the [id] reads as a UUID it is the error of the default case, for the
    status [None]. *)
Theorem webhook_missing_status self request d tid :
  outcome (_verify_webhook_headers self request) = inr true →
  loads (body request) = inr (VDict d) →
  d !! "id" = Some (VStr tid) → tid ≠ "" →
  d !! "status" = None →
  (∃ msg, outcome (handle_webhook self request) = inl (ValueError msg))
  ∧ (∀ u, UUID_of_str tid = inr u →
       outcome (handle_webhook self request) =
         inl (ValueError ("Unsupported status: " +:+ str VNone))).
Proof.
  intros Hv Hbody Hid Htid Hst. apply outcome_eq in Hv.
  rewrite (handle_webhook_verified _ _ _ _ Hv Hbody). simpl.
  rewrite Hid, Hst. simpl. apply String.eqb_neq in Htid as ->. simpl.
  destruct (UUID_of_str tid) as [msg|u]; simpl.
  - split; [by eexists|]. by intros u [=].
  - split; [by eexists|]. by intros u' _.
Qed.

(** C10: past the verification, a non-empty string [id] that [UUID] refuses
    makes [handle_webhook] raise the [ValueError] of [UUID], whatever the
    status is, CONFIRMED and CANCELED included. *)
Theorem webhook_invalid_uuid self request d tid msg :
  outcome (_verify_webhook_headers self request) = inr true →
  loads (body request) = inr (VDict d) →
  d !! "id" = Some (VStr tid) → tid ≠ "" →
  UUID_of_str tid = inl msg →
  handle_webhook self request =
    (Log DEBUG "Received Platega webhook request"
       :: trace (_verify_webhook_headers self request),
     inl (ValueError msg)).
Proof.
  intros Hv Hbody Hid Htid Hu. apply outcome_eq in Hv.
  rewrite (handle_webhook_verified _ _ _ _ Hv Hbody). simpl.
  rewrite Hid. simpl. apply String.eqb_neq in Htid as ->. simpl.
  by rewrite Hu.
Qed.

(** Where the preconditions above end.  An [id] that is not a [str] and is
    not falsy (a number, [true], a non-empty list or object) reaches
    [UUID], whose first step is [x.replace]: the error is [AttributeError],
    for every status. *)
Lemma webhook_id_not_a_string self request d v :
  outcome (_verify_webhook_headers self request) = inr true →
  loads (body request) = inr (VDict d) →
  d !! "id" = Some v → truthy v = true → (∀ s, v ≠ VStr s) →
  ∃ msg, outcome (handle_webhook self request) = inl (AttributeError msg).
Proof.
  intros Hv Hbody Hid Hv' Hstr. apply outcome_eq in Hv.
  rewrite (handle_webhook_verified _ _ _ _ Hv Hbody). simpl.
  rewrite Hid. simpl. rewrite Hv'. simpl.
  destruct v as [| | | |s| |]; try by eexists. by destruct (Hstr s).
Qed.

(** A header that is present with an empty value counts as missing: the
    answer is [False] on the WARNING path. *)
Lemma verify_empty_header gateway b c self request :
  outcome (__init__ gateway b c) = inr self →
  headers_get (headers request) "X-MerchantId" = Some ""
  ∨ headers_get (headers request) "X-Secret" = Some "" →
  _verify_webhook_headers self request =
    ([Log WARNING "Platega webhook missing required headers"], inr false).
Proof.
  intros Hinit Hempty.
  destruct (init_returns _ _ _ _ Hinit) as (m & s & Hs & _ & _ & _ & _).
  rewrite (verify_eval self request m s Hs).
  by destruct Hempty as [-> | ->]; [|rewrite orb_true_r].
Qed.

(** *** Creation of a payment *)

(** Building the payload does nothing observable, and fails only where
    [float] does. *)
Lemma _create_payment_payload_eval self w amount order_id description :
  _create_payment_payload self w amount order_id description =
    match float amount with
    | inl msg => ([], inl (ValueError msg))
    | inr amount_float =>
        ([], inr (list_to_map
          [("paymentMethod", VInt DEFAULT_PAYMENT_METHOD);
           ("paymentDetails", VDict (list_to_map
              [("amount", VFloat amount_float);
               ("currency", VStr (value_of (currency (data self))))]));
           ("description", VStr description);
           ("return", VStr (bot_redirect_url w));
           ("failedUrl", VStr (bot_redirect_url w));
           ("payload", VStr order_id)]))
    end.
Proof.
  unfold _create_payment_payload, _get_bot_redirect_url, float_. run.
  destruct (float amount); by run.
Qed.

(** Every [except] clause logs one record and re-raises what it caught. *)
Lemma create_payment_handler_reraises {A} (e : exn) :
  ∃ ev, @create_payment_handler _ A e = ([ev], inl e) ∧ is_post ev = false.
Proof. destruct e; by eexists. Qed.

(** [handle_create_payment] once the payload is built and the provider has
    answered with a success status. *)
Lemma handle_create_payment_answered self w amount details payload response :
  outcome (_create_payment_payload self w (str_Decimal amount)
             (str_UUID (uuid4 w)) details) = inr payload →
  send w "transaction/process" (VDict payload) = inr response →
  is_success response = true →
  let sent := Post (_client self) "transaction/process" (VDict payload) in
  let parsed :=
    try_except
      (data ← orjson_loads (content response);
       _get_payment_data self data (str_UUID (uuid4 w)))
      create_payment_handler in
  handle_create_payment self w amount details =
    (sent :: trace parsed, outcome parsed).
Proof.
  intros Hpayload Hsend Hok. unfold handle_create_payment.
  rewrite _create_payment_payload_eval in Hpayload |- *.
  destruct (float (str_Decimal amount)) as [msg|f]; [done|].
  autorewrite with monad in Hpayload. apply (inj inr) in Hpayload.
  subst payload. run.
  unfold post. rewrite bind_assoc, try_except_tell, Hsend.
  unfold lift. run. unfold raise_for_status. rewrite Hok. by run.
Qed.

(** Sending aside, no step of [handle_create_payment] posts anything. *)
Lemma posts_bind {A B} (m : M A) (k : A → M B) :
  posts m = [] → (∀ x, posts (k x) = []) → posts (m ≫= k) = [].
Proof.
  unfold posts, mbind, M_bind, bind. destruct m as [tr [e|x]]; [done|].
  simpl. intros Hm Hk. specialize (Hk x). destruct (k x) as [tr' r].
  simpl in *. by rewrite filter_app, Hm, Hk.
Qed.

Lemma posts_try_except {A} (m : M A) :
  posts m = [] → posts (try_except m create_payment_handler) = [].
Proof.
  unfold posts, try_except. destruct m as [tr [e|x]]; [|done].
  destruct (create_payment_handler_reraises (A:=A) e) as (ev & -> & Hev).
  simpl. intros Hm. rewrite filter_app, Hm. simpl.
  unfold filter, list_filter. by rewrite Hev.
Qed.

Lemma posts_get_payment_data self data order_id :
  posts (_get_payment_data self data order_id) = [].
Proof.
  unfold _get_payment_data. apply posts_bind; [done|]. intros _.
  apply posts_bind; [by destruct data|]. intros transaction_id_str.
  destruct (negb (truthy transaction_id_str)); [done|].
  apply posts_bind; [by destruct data|]. intros redirect_url.
  destruct (negb (truthy redirect_url)); [done|].
  apply posts_bind; [|done].
  destruct transaction_id_str as [| | | |s| |]; try done.
  simpl. by destruct (UUID_of_str s).
Qed.

(** [handle_create_payment] posts once if the payload is built and not at
    all otherwise. *)
Lemma handle_create_payment_posts self w amount details :
  posts (handle_create_payment self w amount details) =
    match outcome (_create_payment_payload self w (str_Decimal amount)
                     (str_UUID (uuid4 w)) details) with
    | inl _ => []
    | inr payload =>
        [Post (_client self) "transaction/process" (VDict payload)]
    end.
Proof.
  unfold handle_create_payment. rewrite _create_payment_payload_eval.
  destruct (float (str_Decimal amount)) as [msg|f]; [done|]. run.
  unfold post. rewrite bind_assoc, try_except_tell.
  unfold posts at 1. rewrite trace_pair, filter_cons_True by done.
  f_equal. apply posts_try_except, posts_bind.
  { by destruct (send _ _ _). }
  intros response. apply posts_bind.
  { unfold raise_for_status. by destruct (is_success response). }
  intros _. apply posts_bind.
  { unfold orjson_loads. by destruct (loads _). }
  intros data. apply posts_get_payment_data.
Qed.

(** C8: whenever [float] accepts the text of the amount, the payload that
    [create_payment] builds and posts, once, to [transaction/process] has
    [paymentMethod] 2, [paymentDetails] with the float of the amount and the
    configured currency, the given description, the bot's redirect URL
    under both [return] and [failedUrl], the order id just drawn under
    [payload], and no other key. *)
Theorem outbound_payload_fields self w amount details f :
  float (str_Decimal amount) = inr f →
  ∃ payload payment_details,
    outcome (_create_payment_payload self w (str_Decimal amount)
               (str_UUID (uuid4 w)) details) = inr payload
    ∧ payload !! "paymentMethod" = Some (VInt 2)
    ∧ payload !! "paymentDetails" = Some (VDict payment_details)
    ∧ payment_details !! "amount" = Some (VFloat f)
    ∧ payment_details !! "currency"
      = Some (VStr (value_of (currency (data self))))
    ∧ payload !! "description" = Some (VStr details)
    ∧ payload !! "return" = Some (VStr (bot_redirect_url w))
    ∧ payload !! "failedUrl" = Some (VStr (bot_redirect_url w))
    ∧ payload !! "payload" = Some (VStr (str_UUID (uuid4 w)))
    ∧ dom payload = list_to_set ["paymentMethod"; "paymentDetails";
                       "description"; "return"; "failedUrl"; "payload"]
    ∧ dom payment_details = list_to_set ["amount"; "currency"]
    ∧ posts (handle_create_payment self w amount details)
      = [Post (_client self) "transaction/process" (VDict payload)].
Proof.
  intros Hf. eexists _, _.
  rewrite _create_payment_payload_eval, Hf.
  split; [reflexivity|].
  repeat (split; [reflexivity|]).
  by rewrite handle_create_payment_posts, _create_payment_payload_eval, Hf.
Qed.

(** [_get_payment_data] on a dict: the decision tree of the method. *)
Lemma _get_payment_data_eval self d order_id :
  let transaction_id_str := default VNone (d !! "transactionId") in
  let redirect_url := default VNone (d !! "redirect") in
  let start := [Log DEBUG
    ("Processing Platega payment response. Order ID: " +:+ order_id)] in
  _get_payment_data self (VDict d) order_id =
    if negb (truthy transaction_id_str) then
      (start, inl (KeyError
         "Invalid response from Platega API: missing 'transactionId'"))
    else if negb (truthy redirect_url) then
      (start, inl (KeyError
         "Invalid response from Platega API: missing 'redirect'"))
    else
      match outcome (UUID_ transaction_id_str) with
      | inl e => (start, inl e)
      | inr transaction_id =>
          (start, inr (mkPaymentResult transaction_id (str redirect_url)))
      end.
Proof.
  unfold _get_payment_data, get. run.
  destruct (negb (truthy (default VNone (d !! "transactionId")))); run;
    [done|].
  destruct (negb (truthy (default VNone (d !! "redirect")))); run; [done|].
  destruct (default VNone (d !! "transactionId")) as [| | | |s| |]; try done.
  simpl. destruct (UUID_of_str s); by run.
Qed.

(** A body that decodes to something other than a dict has no [get]: the
    error is [AttributeError], which the last [except] clause logs. *)
Lemma handle_create_payment_not_a_dict self w amount details payload
    response data :
  outcome (_create_payment_payload self w (str_Decimal amount)
             (str_UUID (uuid4 w)) details) = inr payload →
  send w "transaction/process" (VDict payload) = inr response →
  is_success response = true →
  loads (content response) = inr data → (∀ d, data ≠ VDict d) →
  ∃ msg record, handle_create_payment self w amount details =
    ([Post (_client self) "transaction/process" (VDict payload);
      Log DEBUG ("Processing Platega payment response. Order ID: "
                 +:+ str_UUID (uuid4 w));
      LogException record],
     inl (AttributeError msg)).
Proof.
  intros Hpayload Hsend Hok Hbody Hdict.
  rewrite (handle_create_payment_answered _ _ _ _ _ _ Hpayload Hsend Hok).
  unfold orjson_loads. rewrite Hbody. run. unfold _get_payment_data. run.
  destruct data as [| | | | | |d]; try by eexists _, _.
  by destruct (Hdict d).
Qed.

(** [handle_create_payment] once the provider has answered with a status
    outside 200..299. *)
Lemma handle_create_payment_refused_eval self w amount details payload
    response :
  outcome (_create_payment_payload self w (str_Decimal amount)
             (str_UUID (uuid4 w)) details) = inr payload →
  send w "transaction/process" (VDict payload) = inr response →
  is_success response = false →
  handle_create_payment self w amount details =
    ([Post (_client self) "transaction/process" (VDict payload);
      Log ERROR ("HTTP error creating Platega payment. Status: '"
                 +:+ str (VInt (status_code response)) +:+ "', Body: "
                 +:+ text response)],
     inl (HTTPStatusError (status_error_message response) response)).
Proof.
  intros Hpayload Hsend Hok. unfold handle_create_payment.
  rewrite _create_payment_payload_eval in Hpayload |- *.
  destruct (float (str_Decimal amount)) as [msg|f]; [done|].
  autorewrite with monad in Hpayload. apply (inj inr) in Hpayload.
  subst payload. run.
  unfold post. rewrite bind_assoc, try_except_tell, Hsend.
  unfold lift. run. unfold raise_for_status. rewrite Hok. by run.
Qed.

(** C4: when the provider answers the posted payload with a success status
    and a JSON object whose [transactionId] is a non-empty string that reads
    as the UUID [u] and whose [redirect] is a non-empty string,
    [create_payment] returns the result with id [u] and that very string as
    url; the order id takes no part in it: [_get_payment_data] gives this
    result whatever order id it is handed. *)
Theorem create_payment_result self w amount details payload response d
    tid u redirect :
  outcome (_create_payment_payload self w (str_Decimal amount)
             (str_UUID (uuid4 w)) details) = inr payload →
  send w "transaction/process" (VDict payload) = inr response →
  is_success response = true →
  loads (content response) = inr (VDict d) →
  d !! "transactionId" = Some (VStr tid) → tid ≠ "" →
  UUID_of_str tid = inr u →
  d !! "redirect" = Some (VStr redirect) → redirect ≠ "" →
  outcome (handle_create_payment self w amount details)
    = inr (mkPaymentResult u redirect)
  ∧ ∀ order_id,
      outcome (_get_payment_data self (VDict d) order_id)
        = inr (mkPaymentResult u redirect).
Proof.
  intros Hpayload Hsend Hok Hbody Htid Hne Hu Hredirect Hne'.
  assert (∀ order_id, _get_payment_data self (VDict d) order_id =
            ([Log DEBUG ("Processing Platega payment response. Order ID: "
                         +:+ order_id)],
             inr (mkPaymentResult u redirect))) as Hdata.
  { intros order_id. rewrite _get_payment_data_eval. simpl.
    rewrite Htid, Hredirect. simpl. rewrite Hu.
    apply String.eqb_neq in Hne as ->, Hne' as ->. done. }
  split; [|intros order_id; by rewrite Hdata].
  rewrite (handle_create_payment_answered _ _ _ _ _ _ Hpayload Hsend Hok).
  unfold orjson_loads. rewrite Hbody. run. by rewrite Hdata.
Qed.

(** C5: when the provider answers the posted payload with a success status,
    a JSON object whose [transactionId] is missing or empty, or whose
    [redirect] is, makes [create_payment] raise [KeyError], and a body that
    is not JSON makes it raise [JSONDecodeError]; the exception is logged at
    ERROR level and reaches the caller as it was raised; and no run of
    [create_payment] posts more than once. *)
Theorem create_payment_parse_errors self w amount details payload response :
  outcome (_create_payment_payload self w (str_Decimal amount)
             (str_UUID (uuid4 w)) details) = inr payload →
  send w "transaction/process" (VDict payload) = inr response →
  is_success response = true →
  let sent := Post (_client self) "transaction/process" (VDict payload) in
  let parsing := Log DEBUG
    ("Processing Platega payment response. Order ID: "
     +:+ str_UUID (uuid4 w)) in
  let failed e := Log ERROR
    ("Failed to parse Platega response. Error: " +:+ str_exn e) in
  let no_id := KeyError
    "Invalid response from Platega API: missing 'transactionId'" in
  let no_redirect := KeyError
    "Invalid response from Platega API: missing 'redirect'" in
  (∀ d, loads (content response) = inr (VDict d) →
     d !! "transactionId" = None
     ∨ (∃ v, d !! "transactionId" = Some v ∧ truthy v = false) →
     handle_create_payment self w amount details
       = ([sent; parsing; failed no_id], inl no_id))
  ∧ (∀ d, loads (content response) = inr (VDict d) →
       d !! "redirect" = None
       ∨ (∃ v, d !! "redirect" = Some v ∧ truthy v = false) →
       let e := if truthy (default VNone (d !! "transactionId"))
                then no_redirect else no_id in
       handle_create_payment self w amount details
         = ([sent; parsing; failed e], inl e))
  ∧ (∀ msg, loads (content response) = inl msg →
       handle_create_payment self w amount details
         = ([sent; failed (JSONDecodeError msg)],
            inl (JSONDecodeError msg)))
  ∧ (∀ self' w' amount' details',
       (length (posts (handle_create_payment self' w' amount' details'))
        ≤ 1)%nat).
Proof.
  intros Hpayload Hsend Hok sent parsing failed no_id no_redirect.
  pose proof (handle_create_payment_answered _ _ _ _ _ _ Hpayload Hsend Hok)
    as Hrun. simpl in Hrun. fold sent in Hrun.
  split; [|split; [|split]].
  - intros d Hbody Hid. rewrite Hrun. unfold orjson_loads. rewrite Hbody. run.
    rewrite _get_payment_data_eval. simpl.
    by destruct Hid as [Hid|(v & Hid & Hv)]; rewrite Hid; simpl;
      [|rewrite Hv].
  - intros d Hbody Hredirect. rewrite Hrun. unfold orjson_loads.
    rewrite Hbody. run. rewrite _get_payment_data_eval. simpl.
    destruct (truthy (default VNone (d !! "transactionId"))); [|done].
    by destruct Hredirect as [Hr|(v & Hr & Hv)]; rewrite Hr; simpl;
      [|rewrite Hv].
  - intros msg Hbody. rewrite Hrun. unfold orjson_loads. by rewrite Hbody.
  - intros self' w' amount' details'. rewrite handle_create_payment_posts.
    destruct (outcome (_create_payment_payload self' _ _ _ _)); simpl; lia.
Qed.

(** *** Further properties of the webhook *)

(** The verification reads the headers only. *)
Lemma verify_headers_only self request request' :
  headers request = headers request' →
  _verify_webhook_headers self request
    = _verify_webhook_headers self request'.
Proof. intros Hh. unfold _verify_webhook_headers. by rewrite Hh. Qed.

(** The verification logs nothing, or one WARNING or CRITICAL record, for
    any adapter. *)
Lemma verify_trace self request :
  trace (_verify_webhook_headers self request) = []
  ∨ (∃ msg, trace (_verify_webhook_headers self request)
            = [Log WARNING msg])
  ∨ (∃ msg, trace (_verify_webhook_headers self request)
            = [Log CRITICAL msg]).
Proof.
  unfold _verify_webhook_headers.
  destruct (settings (data self)) as [[m s]|class]; [|by left].
  simpl. destruct s as [s|]; [|by left]. run.
  destruct (negb (truthy_str _) || negb (truthy_str _)); run.
  { right. left. by eexists. }
  destruct (negb (bool_decide _) || negb (bool_decide _)); run.
  - right. right. by eexists.
  - by left.
Qed.

(** The shape of every run of [handle_webhook]: the DEBUG record, what the
    verification logged, and then either an exception or, after a
    verification that answered [True], the INFO record and a result. *)
Lemma handle_webhook_shape self request :
  let start := Log DEBUG "Received Platega webhook request"
               :: trace (_verify_webhook_headers self request) in
  (∃ e, handle_webhook self request = (start, inl e))
  ∨ (∃ r msg, handle_webhook self request = (start ++ [Log INFO msg], inr r)
              ∧ outcome (_verify_webhook_headers self request) = inr true).
Proof.
  destruct (_verify_webhook_headers self request) as [tr [e|[]]] eqn:Hv;
    simpl.
  - left. exists e. unfold handle_webhook. run. by rewrite Hv.
  - destruct (loads (body request)) as [err|v] eqn:Hbody.
    { left. eexists. unfold handle_webhook. run. rewrite Hv.
      unfold _get_webhook_data, orjson_loads. rewrite Hbody.
      unfold mbind, M_bind, bind. simpl. by rewrite app_nil_r. }
    destruct v as [| | | | | |d];
      try (left; eexists; unfold handle_webhook; run; rewrite Hv;
           unfold _get_webhook_data, orjson_loads; rewrite Hbody;
           unfold mbind, M_bind, bind; simpl; by rewrite app_nil_r).
    rewrite (handle_webhook_verified _ _ _ _ Hv Hbody).
    destruct (negb (truthy _)); [left; by eexists|].
    destruct (outcome (UUID_ _)); [left; by eexists|].
    destruct (eq_str _ "CONFIRMED"); [right; by eexists _, _|].
    destruct (eq_str _ "CANCELED"); [right; by eexists _, _|].
    destruct (eq_str _ "PENDING"); left; by eexists.
  - left. rewrite (handle_webhook_unverified _ _ _ Hv). by eexists.
Qed.

(** What a verification that answers [True] has found, for an adapter that
    holds both credentials. *)
Lemma verify_true_credentials self request m s :
  settings (data self)
    = PlategaSettings (mkPlategaSettings (Some m) (Some s)) →
  outcome (_verify_webhook_headers self request) = inr true →
  headers_get (headers request) "X-MerchantId" = Some m
  ∧ headers_get (headers request) "X-Secret" = Some s.
Proof.
  intros Hs. rewrite (verify_eval self request m s Hs).
  destruct (negb (truthy_str _) || negb (truthy_str _)); [done|].
  destruct (bool_decide (_ = Some m)) eqn:Hm; [|done].
  destruct (bool_decide (_ = Some s)) eqn:Hsec; [|done].
  intros _. by apply bool_decide_eq_true in Hm, Hsec.
Qed.

(** A request that the verification refuses is answered without a look at
    its body: any other body under the same headers gives the same run. *)
Theorem webhook_unverified_ignores_body self request request' :
  outcome (_verify_webhook_headers self request) = inr false →
  headers request' = headers request →
  handle_webhook self request' = handle_webhook self request
  ∧ ∃ msg, outcome (handle_webhook self request')
           = inl (PermissionError msg).
Proof.
  intros Hv Hh. apply outcome_eq in Hv.
  pose proof (verify_headers_only self request' request Hh) as Hv'.
  rewrite Hv in Hv'.
  rewrite (handle_webhook_unverified _ _ _ Hv),
    (handle_webhook_unverified _ _ _ Hv'). split; [done|by eexists].
Qed.

(** Every entry that [handle_webhook] writes is a log record: it sends
    nothing and creates no client; and the INFO record of a success is in
    the journal exactly when [handle_webhook] returns. *)
Theorem webhook_success_record self request :
  Forall (λ ev, is_log ev = true) (trace (handle_webhook self request))
  ∧ posts (handle_webhook self request) = []
  ∧ ((∃ ev, ev ∈ trace (handle_webhook self request) ∧ is_info ev = true)
     ↔ ∃ r, outcome (handle_webhook self request) = inr r).
Proof.
  destruct (handle_webhook_shape self request)
    as [[e ->]|(r & msg & -> & _)].
  - destruct (verify_trace self request) as [->|[[w ->]|[w ->]]]; simpl;
      (split; [repeat constructor|split; [done|]]);
      (split; [|by intros [r' ?]]);
      intros (ev & Hin & Hinfo);
      repeat (apply elem_of_cons in Hin as [->|Hin]; [done|]);
      by apply elem_of_nil in Hin.
  - destruct (verify_trace self request) as [->|[[w ->]|[w ->]]]; simpl;
      (split; [repeat constructor|split; [done|]]);
      (split; [intros _; by eexists|]);
      intros _; exists (Log INFO msg); (split; [set_solver|done]).
Qed.

(** The verification of a constructed adapter logs nothing of the
    secrets: its journal is one of five texts, fixed by whether a header is
    missing and by which of the two comparisons failed. *)
Theorem verify_log_reveals_nothing gateway b c self request :
  outcome (__init__ gateway b c) = inr self →
  let critical (mid sec : string) :=
    [Log CRITICAL ("Platega webhook verification failed. MerchantId match: "
                   +:+ mid +:+ ", Secret match: " +:+ sec)] in
  trace (_verify_webhook_headers self request)
  ∈ [ [];
      [Log WARNING "Platega webhook missing required headers"];
      critical "True" "False"; critical "False" "True";
      critical "False" "False" ].
Proof.
  intros Hinit critical.
  destruct (init_returns _ _ _ _ Hinit) as (m & s & Hs & _ & _ & _ & _).
  rewrite (verify_eval self request m s Hs). subst critical.
  destruct (negb (truthy_str _) || negb (truthy_str _)); [set_solver|].
  destruct (bool_decide (_ = Some m)), (bool_decide (_ = Some s)); simpl;
    set_solver.
Qed.

(** A constructed adapter returns a status only for a request that carries
    both of its credentials. *)
Theorem webhook_return_authenticated gateway b c self request r :
  outcome (__init__ gateway b c) = inr self →
  outcome (handle_webhook self request) = inr r →
  ∃ m s,
    settings gateway = PlategaSettings (mkPlategaSettings (Some m) (Some s))
    ∧ headers_get (headers request) "X-MerchantId" = Some m
    ∧ headers_get (headers request) "X-Secret" = Some s.
Proof.
  intros Hinit Hr.
  destruct (init_returns _ _ _ _ Hinit) as (m & s & Hs & _ & _ & Hd & _).
  exists m, s. split; [by rewrite <- Hd|].
  apply (verify_true_credentials self request m s Hs).
  destruct (handle_webhook_shape self request)
    as [[e He]|(r' & msg & _ & Hv)]; [|done].
  by rewrite He in Hr.
Qed.

(** [handle_webhook] reads the headers and the fields [id] and [status] of
    the body, nothing else: two requests with the same headers whose bodies
    are JSON objects that agree on these two fields give the same run. *)
Theorem webhook_reads_id_and_status_only self request request' d d' :
  headers request = headers request' →
  loads (body request) = inr (VDict d) →
  loads (body request') = inr (VDict d') →
  d !! "id" = d' !! "id" → d !! "status" = d' !! "status" →
  handle_webhook self request = handle_webhook self request'.
Proof.
  intros Hh Hbody Hbody' Hid Hst.
  pose proof (verify_headers_only self request request' Hh) as Hsame.
  destruct (_verify_webhook_headers self request) as [tr [e|[]]] eqn:Hv;
    symmetry in Hsame.
  - unfold handle_webhook. run. by rewrite Hv, Hsame.
  - rewrite (handle_webhook_verified _ _ _ _ Hv Hbody),
      (handle_webhook_verified _ _ _ _ Hsame Hbody'). simpl.
    by rewrite Hid, Hst.
  - by rewrite (handle_webhook_unverified _ _ _ Hv),
      (handle_webhook_unverified _ _ _ Hsame).
Qed.

(** *** Further properties of the creation of a payment *)

(** The record an [except] clause writes is a record of a failure. *)
Lemma create_payment_handler_record {A} (e : exn) :
  ∃ ev, @create_payment_handler _ A e = ([ev], inl e)
        ∧ is_error_record ev = true.
Proof. destruct e; by eexists. Qed.

(** [_get_payment_data] logs its DEBUG record and nothing else, whatever it
    is given. *)
Lemma _get_payment_data_trace self data order_id :
  trace (_get_payment_data self data order_id) =
    [Log DEBUG
       ("Processing Platega payment response. Order ID: " +:+ order_id)].
Proof.
  destruct data as [| | | | | |d]; try done.
  rewrite _get_payment_data_eval. simpl.
  destruct (negb (truthy _)); [done|]. destruct (negb (truthy _)); [done|].
  by destruct (outcome (UUID_ _)).
Qed.

(** The shape of every run of [handle_create_payment] that has built its
    payload: the request, the DEBUG record if the response was decoded,
    and then either a result or one record of a failure and the
    exception. *)
Lemma handle_create_payment_shape self w amount details payload :
  outcome (_create_payment_payload self w (str_Decimal amount)
             (str_UUID (uuid4 w)) details) = inr payload →
  let sent := Post (_client self) "transaction/process" (VDict payload) in
  let parsing := Log DEBUG
    ("Processing Platega payment response. Order ID: "
     +:+ str_UUID (uuid4 w)) in
  ∃ tr, (tr = [] ∨ tr = [parsing])
    ∧ ((∃ e ev, handle_create_payment self w amount details
                  = (sent :: tr ++ [ev], inl e)
                ∧ is_error_record ev = true)
       ∨ (∃ p, handle_create_payment self w amount details
                 = (sent :: tr, inr p))).
Proof.
  intros Hpayload sent parsing.
  destruct (send w "transaction/process" (VDict payload))
    as [e|response] eqn:Hsend.
  { exists []. split; [by left|]. left.
    destruct (create_payment_handler_record (A:=PaymentResult) e)
      as (ev & Hev & Herr).
    exists e, ev. split; [|done]. unfold handle_create_payment.
    rewrite _create_payment_payload_eval in Hpayload |- *.
    destruct (float (str_Decimal amount)) as [msg|f]; [done|].
    autorewrite with monad in Hpayload. apply (inj inr) in Hpayload.
    subst payload. run. unfold post.
    rewrite bind_assoc, try_except_tell, Hsend. unfold lift. run.
    unfold try_except. by rewrite Hev. }
  destruct (is_success response) eqn:Hok.
  - rewrite (handle_create_payment_answered _ _ _ _ _ _ Hpayload Hsend Hok).
    unfold orjson_loads. destruct (loads (content response)) as [msg|data].
    { exists []. split; [by left|]. left. by eexists _, _. }
    run. pose proof (_get_payment_data_trace self data (str_UUID (uuid4 w)))
      as Htr.
    destruct (_get_payment_data self data (str_UUID (uuid4 w)))
      as [tr [e|p]]; simpl in Htr; subst tr; exists [parsing];
      (split; [by right|]).
    + left. destruct (create_payment_handler_record (A:=PaymentResult) e)
        as (ev & Hev & Herr).
      exists e, ev. split; [|done]. unfold try_except. by rewrite Hev.
    + right. by exists p.
  - exists []. split; [by left|]. left.
    rewrite (handle_create_payment_refused_eval _ _ _ _ _ _
               Hpayload Hsend Hok). by eexists _, _.
Qed.

(** A status outside 200..299 raises [HTTPStatusError] with the response;
    it is logged once at ERROR level with the status code and the text of
    the body, and the body is not decoded. *)
Theorem create_payment_http_error self w amount details payload response :
  outcome (_create_payment_payload self w (str_Decimal amount)
             (str_UUID (uuid4 w)) details) = inr payload →
  send w "transaction/process" (VDict payload) = inr response →
  is_success response = false →
  handle_create_payment self w amount details =
    ([Post (_client self) "transaction/process" (VDict payload);
      Log ERROR ("HTTP error creating Platega payment. Status: '"
                 +:+ str (VInt (status_code response)) +:+ "', Body: "
                 +:+ text response)],
     inl (HTTPStatusError (status_error_message response) response)).
Proof. apply handle_create_payment_refused_eval. Qed.

(** An exception raised while the request is sent reaches the caller as it
    is, after the one request and one record of the failure; an exception
    that no [except] clause names is logged with [logger.exception]. *)
Theorem create_payment_send_fails self w amount details payload e :
  outcome (_create_payment_payload self w (str_Decimal amount)
             (str_UUID (uuid4 w)) details) = inr payload →
  send w "transaction/process" (VDict payload) = inl e →
  (∃ ev, handle_create_payment self w amount details =
           ([Post (_client self) "transaction/process" (VDict payload); ev],
            inl e)
         ∧ is_error_record ev = true)
  ∧ ∀ msg, e = RequestError msg →
      trace (handle_create_payment self w amount details) =
        [Post (_client self) "transaction/process" (VDict payload);
         LogException
           ("An unexpected error occurred while creating Platega payment: "
            +:+ msg)].
Proof.
  intros Hpayload Hsend.
  assert (handle_create_payment self w amount details =
            (Post (_client self) "transaction/process" (VDict payload)
               :: trace (create_payment_handler (A:=PaymentResult) e),
             inl e)) as ->.
  { unfold handle_create_payment.
    rewrite _create_payment_payload_eval in Hpayload |- *.
    destruct (float (str_Decimal amount)) as [msg|f]; [done|].
    autorewrite with monad in Hpayload. apply (inj inr) in Hpayload.
    subst payload. run. unfold post.
    rewrite bind_assoc, try_except_tell, Hsend. unfold lift. run.
    unfold try_except.
    by destruct (create_payment_handler_record (A:=PaymentResult) e)
      as (ev & -> & _). }
  split.
  - destruct (create_payment_handler_record (A:=PaymentResult) e)
      as (ev & -> & Herr). by exists ev.
  - by intros msg ->.
Qed.

(** Once the payload is built, a run of [handle_create_payment] writes
    exactly one record of a failure when it raises and none when it
    returns. *)
Theorem create_payment_failure_logged_once self w amount details payload :
  outcome (_create_payment_payload self w (str_Decimal amount)
             (str_UUID (uuid4 w)) details) = inr payload →
  length (filter is_error_record
            (trace (handle_create_payment self w amount details)))
  = match outcome (handle_create_payment self w amount details) with
    | inl _ => 1%nat
    | inr _ => 0%nat
    end.
Proof.
  intros Hpayload.
  destruct (handle_create_payment_shape _ _ _ _ _ Hpayload)
    as (tr & Htr & [(e & ev & -> & Hev)|(p & ->)]);
    destruct Htr as [-> | ->]; simpl; try apply Is_true_true in Hev.
  - rewrite filter_cons_False by (intros Hf; exact Hf).
    by rewrite filter_cons_True.
  - rewrite !filter_cons_False by (intros Hf; exact Hf).
    by rewrite filter_cons_True.
  - reflexivity.
  - reflexivity.
Qed.

(** An amount whose text [float] refuses makes [handle_create_payment]
    raise [ValueError] before the [try] statement: nothing is sent and
    nothing is logged. *)
Theorem create_payment_amount_refused self w amount details msg :
  float (str_Decimal amount) = inl msg →
  handle_create_payment self w amount details = ([], inl (ValueError msg)).
Proof.
  intros Hf. unfold handle_create_payment.
  by rewrite _create_payment_payload_eval, Hf.
Qed.

(** A [transactionId] that is a non-empty string but that [UUID] refuses,
    beside a non-empty [redirect], makes [handle_create_payment] raise the
    [ValueError] of [UUID]; no [except] clause names it, so it is logged
    with [logger.exception] and not as a parse error. *)
Theorem create_payment_invalid_uuid self w amount details payload response
    d tid msg :
  outcome (_create_payment_payload self w (str_Decimal amount)
             (str_UUID (uuid4 w)) details) = inr payload →
  send w "transaction/process" (VDict payload) = inr response →
  is_success response = true →
  loads (content response) = inr (VDict d) →
  d !! "transactionId" = Some (VStr tid) → tid ≠ "" →
  UUID_of_str tid = inl msg →
  truthy (default VNone (d !! "redirect")) = true →
  handle_create_payment self w amount details =
    ([Post (_client self) "transaction/process" (VDict payload);
      Log DEBUG ("Processing Platega payment response. Order ID: "
                 +:+ str_UUID (uuid4 w));
      LogException
        ("An unexpected error occurred while creating Platega payment: "
         +:+ msg)],
     inl (ValueError msg)).
Proof.
  intros Hpayload Hsend Hok Hbody Htid Hne Hu Hredirect.
  rewrite (handle_create_payment_answered _ _ _ _ _ _ Hpayload Hsend Hok).
  unfold orjson_loads. rewrite Hbody. run.
  rewrite _get_payment_data_eval. simpl. rewrite Htid, Hredirect. simpl.
  apply String.eqb_neq in Hne as ->. simpl. by rewrite Hu.
Qed.

(** The id of a created payment is the id its webhook reports: when the
    provider's response carries the string [tid] as [transactionId] and a
    webhook carries the same string as [id], the result of
    [handle_create_payment] and the result of [handle_webhook] hold the
    same UUID. *)
Theorem payment_webhook_same_id self w amount details payload response d
    request d' tid p r :
  outcome (_create_payment_payload self w (str_Decimal amount)
             (str_UUID (uuid4 w)) details) = inr payload →
  send w "transaction/process" (VDict payload) = inr response →
  loads (content response) = inr (VDict d) →
  d !! "transactionId" = Some (VStr tid) →
  loads (body request) = inr (VDict d') →
  d' !! "id" = Some (VStr tid) →
  outcome (handle_create_payment self w amount details) = inr p →
  outcome (handle_webhook self request) = inr r →
  id p = r.1.
Proof.
  intros Hpayload Hsend Hbody Htid Hbody' Hid Hp Hr.
  destruct (is_success response) eqn:Hok;
    [|by rewrite (handle_create_payment_refused_eval _ _ _ _ _ _
                    Hpayload Hsend Hok) in Hp].
  rewrite (handle_create_payment_answered _ _ _ _ _ _ Hpayload Hsend Hok)
    in Hp.
  unfold orjson_loads in Hp. rewrite Hbody in Hp. autorewrite with monad in Hp.
  rewrite _get_payment_data_eval in Hp. simpl in Hp. rewrite Htid in Hp.
  simpl in Hp.
  destruct (handle_webhook_shape self request)
    as [[e He]|(r' & info & _ & Hv)]; [by rewrite He in Hr|].
  apply outcome_eq in Hv.
  rewrite (handle_webhook_verified _ _ _ _ Hv Hbody') in Hr. simpl in Hr.
  rewrite Hid in Hr. simpl in Hr.
  destruct (negb (negb (String.eqb tid ""))); [done|].
  destruct (UUID_of_str tid) as [err|u]; simpl in Hp, Hr; [done|].
  destruct (negb (truthy _)); [done|]. simpl in Hp. injection Hp as <-.
  destruct (eq_str _ "CONFIRMED"); [by injection Hr as <-|].
  destruct (eq_str _ "CANCELED"); [by injection Hr as <-|].
  by destruct (eq_str _ "PENDING").
Qed.

(** The adapter accepts what it sends: the client of a constructed adapter
    addresses [API_BASE] and carries the configured credentials as
    X-MerchantId and X-Secret, and a webhook that carries these two header
    values passes the verification with nothing logged. *)
Theorem client_credentials_accepted gateway b c self :
  outcome (__init__ gateway b c) = inr self →
  ∃ m s,
    _client self = mkAsyncClient "https://app.platega.io"
      [("X-MerchantId", Some m); ("X-Secret", Some s);
       ("Content-Type", Some "application/json")]
    ∧ m ≠ "" ∧ s ≠ ""
    ∧ ∀ request,
        headers_get (headers request) "X-MerchantId" = Some m →
        headers_get (headers request) "X-Secret" = Some s →
        _verify_webhook_headers self request = ([], inr true).
Proof.
  intros Hinit.
  destruct (init_returns _ _ _ _ Hinit) as (m & s & Hs & Hm & Hsec & Hd & _).
  exists m, s. split; [|split; [done|split; [done|]]].
  - unfold __init__ in Hinit. rewrite <- Hd, Hs in Hinit. simpl in Hinit.
    apply String.eqb_neq in Hm as Hm', Hsec as Hsec'.
    rewrite Hm', Hsec' in Hinit. simpl in Hinit. by injection Hinit as <-.
  - intros request Hrm Hrs. rewrite Hd in Hs.
    by apply (verify_accepts gateway b c self request
                (mkPlategaSettings (Some m) (Some s)) Hinit Hs).
Qed.

(** The order id that is logged when the response is processed is the one
    that was sent under [payload]: whenever the provider answers the posted
    payload with a success status and a body that decodes, the journal
    holds the request and then the DEBUG record with the same order id. *)
Theorem order_id_sent_and_logged self w amount details payload response
    data :
  outcome (_create_payment_payload self w (str_Decimal amount)
             (str_UUID (uuid4 w)) details) = inr payload →
  send w "transaction/process" (VDict payload) = inr response →
  is_success response = true →
  loads (content response) = inr data →
  ∃ order_id tr,
    payload !! "payload" = Some (VStr order_id)
    ∧ trace (handle_create_payment self w amount details) =
        Post (_client self) "transaction/process" (VDict payload)
        :: Log DEBUG ("Processing Platega payment response. Order ID: "
                      +:+ order_id)
        :: tr.
Proof.
  intros Hpayload Hsend Hok Hbody.
  rewrite (handle_create_payment_answered _ _ _ _ _ _ Hpayload Hsend Hok).
  rewrite _create_payment_payload_eval in Hpayload.
  destruct (float (str_Decimal amount)) as [msg|f]; [done|].
  autorewrite with monad in Hpayload. apply (inj inr) in Hpayload.
  subst payload. unfold orjson_loads. rewrite Hbody. run.
  pose proof (_get_payment_data_trace self data (str_UUID (uuid4 w)))
    as Htr.
  destruct (_get_payment_data self data (str_UUID (uuid4 w)))
    as [tr' [e|p]]; simpl in Htr; subst tr'.
  - destruct (create_payment_handler_record (A:=PaymentResult) e)
      as (ev & Hev & _).
    exists (str_UUID (uuid4 w)), [ev]. split; [reflexivity|].
    unfold try_except. by rewrite Hev.
  - exists (str_UUID (uuid4 w)), []. by split.
Qed.

End Properties.

(** ** The theorems at work on the examples *)

Section Examples.
Import Example.
#[local] Existing Instance Example.runtime.

(** The adapter run on the samples. *)
Example header_name_lowered : lower "X-MerchantId" = "x-merchantid".
Proof. reflexivity. Qed.

Example sample_uuid_text :
  print_uuid sample_uuid = sample_id ∧ parse_uuid sample_id = inr sample_uuid.
Proof. split; reflexivity. Qed.

Example construction_run :
  __init__ sample_gateway sample_bot sample_config
    = ([MakeClient sample_client], inr sample_self).
Proof. reflexivity. Qed.

Example construction_without_secret :
  __init__ (mkPaymentGatewayDto (mkCurrency "RUB")
              (PlategaSettings (mkPlategaSettings (Some "merchant-1") None)))
           sample_bot sample_config
    = ([], inl (ValueError
         "Platega gateway requires merchant_id and api_secret to be configured")).
Proof. reflexivity. Qed.

Example confirmed_run :
  handle_webhook sample_self (webhook confirmed_body)
    = ([Log DEBUG "Received Platega webhook request";
        Log INFO ("Platega webhook processed successfully. Transaction ID: "
                  +:+ sample_id +:+ ", Status: CONFIRMED")],
       inr (sample_uuid, COMPLETED)).
Proof. reflexivity. Qed.

Example canceled_run :
  outcome (handle_webhook sample_self (webhook canceled_body))
    = inr (sample_uuid, CANCELED).
Proof. reflexivity. Qed.

Example unsigned_run :
  handle_webhook sample_self unsigned_webhook
    = ([Log DEBUG "Received Platega webhook request";
        Log WARNING "Platega webhook missing required headers"],
       inl (PermissionError
              "Platega webhook verification failed: invalid headers")).
Proof. reflexivity. Qed.

Example wrong_secret_run :
  handle_webhook sample_self
    (mkRequest [("x-merchantid", "merchant-1"); ("x-secret", "guess")]
       confirmed_body)
    = ([Log DEBUG "Received Platega webhook request";
        Log CRITICAL ("Platega webhook verification failed. "
                      +:+ "MerchantId match: True, Secret match: False")],
       inl (PermissionError
              "Platega webhook verification failed: invalid headers")).
Proof. reflexivity. Qed.

Example payment_run :
  outcome (handle_create_payment sample_self (answering created_body)
             "10.00" "order")
    = inr (mkPaymentResult sample_uuid "https://pay.example/x")
  ∧ length (trace (handle_create_payment sample_self
                     (answering created_body) "10.00" "order")) = 2%nat.
Proof. split; reflexivity. Qed.

Lemma init_failure_witness :
  ∃ msg, outcome (__init__ other_gateway sample_bot sample_config) = inl (TypeError msg).
Proof.
  apply (proj1 (init_failure other_gateway sample_bot sample_config)
           "YookassaGatewaySettingsDto").
  reflexivity.
Defined.

Lemma webhook_status_mapping_witness :
  outcome (__init__ sample_gateway sample_bot sample_config) = inr sample_self
  ∧ outcome (handle_webhook sample_self (webhook confirmed_body))
    = inr (sample_uuid, COMPLETED).
Proof.
  split; [reflexivity|].
  apply (proj1 (webhook_status_mapping sample_gateway sample_bot sample_config sample_self
                  (webhook confirmed_body) sample_settings confirmed_doc
                  sample_id sample_uuid
                  eq_refl eq_refl eq_refl eq_refl eq_refl eq_refl
                  ltac:(discriminate) eq_refl)).
  reflexivity.
Defined.

Lemma webhook_authorization_witness :
  outcome (__init__ sample_gateway sample_bot sample_config) = inr sample_self
  ∧ ∃ msg, outcome (handle_webhook sample_self unsigned_webhook)
           = inl (PermissionError msg).
Proof.
  split; [reflexivity|].
  destruct (webhook_authorization sample_gateway sample_bot sample_config
              sample_self unsigned_webhook eq_refl)
    as (m & s & _ & Hraises & Hrefused & _).
  apply Hraises, Hrefused. right. left. reflexivity.
Defined.

Lemma webhook_rejects_other_status_witness :
  outcome (_verify_webhook_headers sample_self (webhook pending_body))
    = inr true
  ∧ outcome (handle_webhook sample_self (webhook pending_body))
    = inl (ValueError
        ("Unexpected PENDING status in webhook. Transaction ID: "
         +:+ sample_id)).
Proof.
  split; [reflexivity|].
  refine (proj2 (proj2 (webhook_rejects_other_status sample_self
            (webhook pending_body) pending_doc sample_id (VStr "PENDING")
            eq_refl eq_refl eq_refl _ eq_refl _ _)) sample_uuid eq_refl);
    discriminate.
Defined.

Lemma webhook_requires_id_witness :
  outcome (_verify_webhook_headers sample_self (webhook no_id_body))
    = inr true
  ∧ outcome (handle_webhook sample_self (webhook no_id_body))
    = inl (ValueError "Required field 'id' is missing in webhook payload").
Proof.
  split; [reflexivity|].
  rewrite (webhook_requires_id sample_self (webhook no_id_body) no_id_doc
             eq_refl eq_refl (or_introl eq_refl)).
  reflexivity.
Defined.

Lemma webhook_missing_status_witness :
  no_status_doc !! "status" = None
  ∧ outcome (handle_webhook sample_self (webhook no_status_body))
    = inl (ValueError "Unsupported status: None").
Proof.
  split; [reflexivity|].
  refine (proj2 (webhook_missing_status sample_self (webhook no_status_body)
            no_status_doc sample_id eq_refl eq_refl eq_refl _ eq_refl)
          sample_uuid eq_refl).
  discriminate.
Defined.

Lemma webhook_invalid_uuid_witness :
  UUID_of_str "not-a-uuid" = inl "badly formed hexadecimal UUID string"
  ∧ outcome (handle_webhook sample_self (webhook bad_id_body))
    = inl (ValueError "badly formed hexadecimal UUID string").
Proof.
  split; [reflexivity|].
  rewrite (webhook_invalid_uuid sample_self (webhook bad_id_body) bad_id_doc
             "not-a-uuid" "badly formed hexadecimal UUID string"
             eq_refl eq_refl eq_refl ltac:(discriminate) eq_refl).
  reflexivity.
Defined.

Lemma outbound_payload_fields_witness :
  float "10.00" = inr (S754_finite false 5629499534213120 (-49))
  ∧ length (posts (handle_create_payment sample_self
                     (answering created_body) "10.00" "order")) = 1%nat.
Proof.
  split; [reflexivity|].
  destruct (outbound_payload_fields sample_self (answering created_body)
              "10.00" "order" (S754_finite false 5629499534213120 (-49))
              eq_refl)
    as (payload & payment_details & H).
  destruct H as (_ & _ & _ & _ & _ & _ & _ & _ & _ & _ & _ & Hposts).
  rewrite Hposts. reflexivity.
Defined.

Lemma create_payment_result_witness :
  loads created_body = inr (VDict created_doc)
  ∧ outcome (handle_create_payment sample_self (answering created_body)
               "10.00" "order")
    = inr (mkPaymentResult sample_uuid "https://pay.example/x").
Proof.
  split; [reflexivity|].
  eapply (λ payload Hpayload Hsend,
    proj1 (create_payment_result sample_self (answering created_body)
             "10.00" "order" payload
             (mkResponse 200 created_body created_body) created_doc
             sample_id sample_uuid "https://pay.example/x"
             Hpayload Hsend eq_refl eq_refl eq_refl ltac:(discriminate)
             eq_refl eq_refl ltac:(discriminate))).
  - reflexivity.
  - reflexivity.
Defined.

Lemma create_payment_parse_errors_witness :
  no_transaction_doc !! "transactionId" = None
  ∧ outcome (handle_create_payment sample_self
               (answering no_transaction_body) "10.00" "order")
    = inl (KeyError
        "Invalid response from Platega API: missing 'transactionId'").
Proof.
  split; [reflexivity|].
  erewrite (λ payload Hpayload Hsend,
    proj1 (create_payment_parse_errors sample_self
             (answering no_transaction_body) "10.00" "order" payload
             (mkResponse 200 no_transaction_body no_transaction_body)
             Hpayload Hsend eq_refl)
      no_transaction_doc eq_refl (or_introl eq_refl)).
  - reflexivity.
  - reflexivity.
  - reflexivity.
Defined.

End Examples.

(** ** The further properties at work on the examples *)

Section FurtherExamples.
Import Example.
#[local] Existing Instance Example.runtime.

Lemma webhook_unverified_ignores_body_witness :
  outcome (_verify_webhook_headers sample_self unsigned_webhook) = inr false
  ∧ handle_webhook sample_self
      (mkRequest (headers unsigned_webhook) "not json at all")
    = handle_webhook sample_self unsigned_webhook.
Proof.
  split; [reflexivity|].
  apply (webhook_unverified_ignores_body sample_self unsigned_webhook
           (mkRequest (headers unsigned_webhook) "not json at all")
           eq_refl eq_refl).
Defined.

Lemma verify_log_reveals_nothing_witness :
  outcome (__init__ sample_gateway sample_bot sample_config) = inr sample_self
  ∧ (length (trace (_verify_webhook_headers sample_self
                      More.empty_secret_webhook)) ≤ 1)%nat.
Proof.
  split; [reflexivity|].
  pose proof (verify_log_reveals_nothing sample_gateway sample_bot
                sample_config sample_self More.empty_secret_webhook eq_refl)
    as Hin.
  apply list_elem_of_In in Hin.
  destruct Hin as [Hin|[Hin|[Hin|[Hin|[Hin|[]]]]]]; rewrite <- Hin; simpl;
    lia.
Defined.

Lemma webhook_return_authenticated_witness :
  outcome (handle_webhook sample_self (webhook confirmed_body))
    = inr (sample_uuid, COMPLETED)
  ∧ ∃ m s, headers_get sample_headers "X-MerchantId" = Some m
           ∧ headers_get sample_headers "X-Secret" = Some s.
Proof.
  split; [reflexivity|].
  destruct (webhook_return_authenticated sample_gateway sample_bot
              sample_config sample_self (webhook confirmed_body)
              (sample_uuid, COMPLETED) eq_refl eq_refl)
    as (m & s & _ & Hm & Hs).
  by exists m, s.
Defined.

Lemma verify_empty_header_witness :
  headers_get (headers More.empty_secret_webhook) "X-Secret" = Some ""
  ∧ outcome (_verify_webhook_headers sample_self More.empty_secret_webhook)
    = inr false.
Proof.
  split; [reflexivity|].
  rewrite (verify_empty_header sample_gateway sample_bot sample_config
             sample_self More.empty_secret_webhook eq_refl
             (or_intror eq_refl)).
  reflexivity.
Defined.

Lemma client_credentials_accepted_witness :
  outcome (__init__ sample_gateway sample_bot sample_config) = inr sample_self
  ∧ ∃ m s, client_headers (_client sample_self)
           = [("X-MerchantId", Some m); ("X-Secret", Some s);
              ("Content-Type", Some "application/json")].
Proof.
  split; [reflexivity|].
  destruct (client_credentials_accepted sample_gateway sample_bot
              sample_config sample_self eq_refl)
    as (m & s & Hclient & _).
  exists m, s. by rewrite Hclient.
Defined.

Lemma create_payment_http_error_witness :
  is_success (mkResponse 402 "Payment Required" "Payment Required") = false
  ∧ ∃ msg response,
      outcome (handle_create_payment sample_self
                 (More.refusing "Payment Required") "10.00" "order")
      = inl (HTTPStatusError msg response)
      ∧ status_code response = 402.
Proof.
  split; [reflexivity|].
  erewrite (λ payload Hpayload Hsend,
    create_payment_http_error sample_self
      (More.refusing "Payment Required") "10.00" "order" payload
      (mkResponse 402 "Payment Required" "Payment Required")
      Hpayload Hsend eq_refl).
  - by eexists _, _.
  - reflexivity.
  - reflexivity.
Defined.

Lemma create_payment_send_fails_witness :
  outcome (handle_create_payment sample_self More.unreachable "10.00"
             "order")
    = inl (RequestError "All connection attempts failed").
Proof.
  edestruct (λ payload Hpayload Hsend,
    proj1 (create_payment_send_fails sample_self More.unreachable "10.00"
             "order" payload (RequestError "All connection attempts failed")
             Hpayload Hsend)) as (ev & Hrun & _).
  - reflexivity.
  - reflexivity.
  - by rewrite Hrun.
Defined.

Lemma create_payment_failure_logged_once_witness :
  length (filter is_error_record
            (trace (handle_create_payment sample_self
                      (answering no_transaction_body) "10.00" "order")))
    = 1%nat.
Proof.
  erewrite (create_payment_failure_logged_once sample_self
              (answering no_transaction_body) "10.00" "order");
    reflexivity.
Defined.

Lemma create_payment_amount_refused_witness :
  float "ten" = inl "could not convert string to float: 'ten'"
  ∧ trace (handle_create_payment sample_self (answering created_body)
             "ten" "order") = [].
Proof.
  split; [reflexivity|].
  rewrite (create_payment_amount_refused sample_self
             (answering created_body) "ten" "order"
             "could not convert string to float: 'ten'" eq_refl).
  reflexivity.
Defined.

Lemma payment_webhook_same_id_witness :
  created_doc !! "transactionId" = confirmed_doc !! "id"
  ∧ ∃ p r,
      outcome (handle_create_payment sample_self (answering created_body)
                 "10.00" "order") = inr p
      ∧ outcome (handle_webhook sample_self (webhook confirmed_body)) = inr r
      ∧ id p = r.1.
Proof.
  split; [reflexivity|].
  exists (mkPaymentResult sample_uuid "https://pay.example/x"),
    (sample_uuid, COMPLETED).
  split; [reflexivity|split; [reflexivity|]].
  eapply (λ payload Hpayload Hsend,
    payment_webhook_same_id sample_self (answering created_body) "10.00"
      "order" payload (mkResponse 200 created_body created_body)
      created_doc (webhook confirmed_body) confirmed_doc sample_id
      (mkPaymentResult sample_uuid "https://pay.example/x")
      (sample_uuid, COMPLETED)
      Hpayload Hsend eq_refl eq_refl eq_refl eq_refl eq_refl eq_refl).
  - reflexivity.
  - reflexivity.
Defined.

Lemma order_id_sent_and_logged_witness :
  ∃ order_id,
    Log DEBUG ("Processing Platega payment response. Order ID: "
               +:+ order_id)
    ∈ trace (handle_create_payment sample_self (answering created_body)
               "10.00" "order").
Proof.
  edestruct (λ payload Hpayload Hsend,
    order_id_sent_and_logged sample_self (answering created_body) "10.00"
      "order" payload (mkResponse 200 created_body created_body)
      (VDict created_doc) Hpayload Hsend eq_refl eq_refl)
    as (order_id & tr & _ & Htr).
  - reflexivity.
  - reflexivity.
  - exists order_id. rewrite Htr.
    apply list_elem_of_further, list_elem_of_here.
Defined.

End FurtherExamples.

Section MoreExamples.
Import Example.
#[local] Existing Instance More.runtime.

Lemma webhook_reads_id_and_status_only_witness :
  More.annotated_doc !! "amount" = Some (VInt 10)
  ∧ confirmed_doc !! "amount" = None
  ∧ handle_webhook More.sample_self (webhook More.annotated_body)
    = handle_webhook More.sample_self (webhook confirmed_body).
Proof.
  split; [reflexivity|split; [reflexivity|]].
  apply (webhook_reads_id_and_status_only More.sample_self
           (webhook More.annotated_body) (webhook confirmed_body)
           More.annotated_doc confirmed_doc
           eq_refl eq_refl eq_refl eq_refl eq_refl).
Defined.

Lemma webhook_id_not_a_string_witness :
  More.numeric_id_doc !! "id" = Some (VInt 5)
  ∧ ∃ msg, outcome (handle_webhook More.sample_self
                      (webhook More.numeric_id_body))
           = inl (AttributeError msg).
Proof.
  split; [reflexivity|].
  apply (webhook_id_not_a_string More.sample_self
           (webhook More.numeric_id_body) More.numeric_id_doc (VInt 5)
           eq_refl eq_refl eq_refl eq_refl).
  discriminate.
Defined.

Lemma create_payment_invalid_uuid_witness :
  UUID_of_str "not-a-uuid" = inl "badly formed hexadecimal UUID string"
  ∧ outcome (handle_create_payment More.sample_self
               (answering More.bad_transaction_body) "10.00" "order")
    = inl (ValueError "badly formed hexadecimal UUID string").
Proof.
  split; [reflexivity|].
  erewrite (λ payload Hpayload Hsend,
    create_payment_invalid_uuid More.sample_self
      (answering More.bad_transaction_body) "10.00" "order" payload
      (mkResponse 200 More.bad_transaction_body More.bad_transaction_body)
      More.bad_transaction_doc "not-a-uuid"
      "badly formed hexadecimal UUID string"
      Hpayload Hsend eq_refl eq_refl eq_refl ltac:(discriminate) eq_refl
      eq_refl).
  - reflexivity.
  - reflexivity.
  - reflexivity.
Defined.

Lemma handle_create_payment_not_a_dict_witness :
  loads More.list_body = inr (VList [])
  ∧ ∃ msg, outcome (handle_create_payment More.sample_self
                      (answering More.list_body) "10.00" "order")
           = inl (AttributeError msg).
Proof.
  split; [reflexivity|].
  edestruct (λ payload Hpayload Hsend,
    handle_create_payment_not_a_dict More.sample_self
      (answering More.list_body) "10.00" "order" payload
      (mkResponse 200 More.list_body More.list_body) (VList [])
      Hpayload Hsend eq_refl eq_refl ltac:(discriminate))
    as (msg & record & Hrun).
  - reflexivity.
  - reflexivity.
  - exists msg. by rewrite Hrun.
Defined.

End MoreExamples.
